(** * User REST routes over a Mongoose model: a shallow embedding

    Sources embedded here:
    - [models/User.js]         the schema ([name] required, [age] with [min: 0],
                               [favoriteFoods] an array of strings);
    - [routes/userRoutes.js]   the fourteen Express handlers.

    The Mongoose calls the handlers make ([find], [findById], [save], ...) are
    library code; they are modelled in [Module User] over a collection kept as
    a list of documents in natural (insertion) order.  A handler is one
    sequential request: it takes the collection and returns a response
    together with the collection it leaves behind. *)

From Stdlib Require Import List String Ascii Bool Arith ZArith NArith Lia.
From Stdlib Require Import Permutation DecimalString Sorted.
From Stdlib Require OrderedTypeEx.
Import ListNotations.

Local Open Scope string_scope.

(** ** Identifiers

    An [ObjectId] is twelve bytes; it is kept in its canonical JSON form, 24
    lower-case hexadecimal characters.  [castObjectId] is the cast Mongoose
    applies to an [:id] path parameter, as the versions that still have
    [findByIdAndRemove] do it: a string of 24 hexadecimal characters, in
    either case, is read as hexadecimal; a string of 12 characters that takes
    12 bytes is taken as the twelve bytes themselves; anything else is
    refused.  Strings are held as their UTF-8 bytes, so 12 characters in 12
    bytes are 12 characters below 128. *)

Definition ObjectId := string.

Definition is_lower_hex (c : ascii) : bool :=
  let n := N_of_ascii c in
  (((48 <=? n) && (n <=? 57)) || ((97 <=? n) && (n <=? 102)))%N.

Definition is_upper_hex (c : ascii) : bool :=
  let n := N_of_ascii c in ((65 <=? n) && (n <=? 70))%N.

Definition is_hex (c : ascii) : bool := is_lower_hex c || is_upper_hex c.

Definition lower (c : ascii) : ascii :=
  if is_upper_hex c then ascii_of_N (N_of_ascii c + 32) else c.

Fixpoint all_chars (p : ascii -> bool) (s : string) : bool :=
  match s with
  | EmptyString => true
  | String c s' => p c && all_chars p s'
  end.

Fixpoint map_chars (f : ascii -> ascii) (s : string) : string :=
  match s with
  | EmptyString => EmptyString
  | String c s' => String (f c) (map_chars f s')
  end.

Definition hex_char (m : N) : ascii :=
  if (m <? 10)%N then ascii_of_N (48 + m) else ascii_of_N (87 + m).

Definition is_ascii7 (c : ascii) : bool := (N_of_ascii c <? 128)%N.

(** Two hexadecimal digits per byte. *)
Fixpoint hex_of_bytes (s : string) : string :=
  match s with
  | EmptyString => EmptyString
  | String c s' =>
      String (hex_char (N_of_ascii c / 16)%N)
        (String (hex_char (N_of_ascii c mod 16)%N) (hex_of_bytes s'))
  end.

Definition castObjectId (s : string) : option ObjectId :=
  if Nat.eqb (String.length s) 24 && all_chars is_hex s
  then Some (map_chars lower s)
  else if Nat.eqb (String.length s) 12 && all_chars is_ascii7 s
  then Some (hex_of_bytes s)
  else None.

Definition toHexString (o : ObjectId) : string := o.

Fixpoint hex_digits (k : nat) (n : N) (acc : string) : string :=
  match k with
  | O => acc
  | S k' => hex_digits k' (n / 16)%N (String (hex_char (n mod 16)%N) acc)
  end.

(** The identifier [new User(...)] gives a fresh document.  The generator
    (time stamp, process value, counter) is outside the program; its output is
    an input [seed] of the handlers that construct documents. *)
Definition mkObjectId (seed : N) : ObjectId := hex_digits 24 seed EmptyString.

(** ** Documents and the schema of [models/User.js]

    A path that a document does not have is [None].  Numbers are integers
    here: the schema only compares [age] with 0. *)

Record Doc := mkDoc {
  _id : ObjectId;
  name : option string;
  age : option Z;
  favoriteFoods : list string;
  __v : option nat
}.

(** The JSON object of a request body, read at the schema's paths; a path
    that is absent is [None]. *)
Module Body.
Record t := mk {
  name : option string;
  age : option Z;
  favoriteFoods : option (list string)
}.
End Body.

(** What [express.json()] hands over: an object or an array of objects. *)
Inductive ReqBody :=
| BObject (o : Body.t)
| BArray (l : list Body.t).

(** ** Errors, as the JavaScript objects the [catch] blocks inspect *)

Module Err.
Record t := mk {
  name : string;
  kind : option string;
  message : string
}.
End Err.

Definition backtick : string := String "096"%char EmptyString.
Definition dquote : string := String "034"%char EmptyString.

Definition string_of_nat (n : nat) : string :=
  NilZero.string_of_uint (Nat.to_uint n).

Definition string_of_Z (z : Z) : string :=
  NilZero.string_of_int (Z.to_int z).

Definition CastError (value : string) : Err.t :=
  Err.mk "CastError" (Some "ObjectId")
    ("Cast to ObjectId failed for value " ++ dquote ++ value ++ dquote
       ++ " (type string) at path " ++ dquote ++ "_id" ++ dquote
       ++ " for model " ++ dquote ++ "User" ++ dquote).

Definition ValidationError (prefix : string) (problems : list string) : Err.t :=
  Err.mk "ValidationError" None (prefix ++ ": " ++ String.concat ", " problems).

Definition MongooseError (op : string) : Err.t :=
  Err.mk "MongooseError" None
    ("Operation " ++ backtick ++ op ++ backtick ++ " buffering timed out after 10000ms").

Definition DuplicateKeyError (o : ObjectId) : Err.t :=
  Err.mk "MongoServerError" None
    ("E11000 duplicate key error collection: users index: _id_ dup key: { _id: ObjectId('"
       ++ o ++ "') }").

Definition DocumentNotFoundError (o : ObjectId) : Err.t :=
  Err.mk "DocumentNotFoundError" None
    ("No document found for query " ++ dquote ++ "{ _id: new ObjectId('" ++ o ++ "') }"
       ++ dquote ++ " on model " ++ dquote ++ "User" ++ dquote).

(** [required: true] on a String path: present and not the empty string. *)
Definition check_required (v : option string) : list string :=
  match v with
  | Some s => if s =? "" then ["name: Path " ++ backtick ++ "name" ++ backtick ++ " is required."] else []
  | None => ["name: Path " ++ backtick ++ "name" ++ backtick ++ " is required."]
  end.

(** [min: 0] on a Number path: checked only when the path has a value. *)
Definition check_min (v : option Z) : list string :=
  match v with
  | Some z =>
      if (z <? 0)%Z
      then ["age: Path " ++ backtick ++ "age" ++ backtick ++ " (" ++ string_of_Z z
              ++ ") is less than minimum allowed value (0)."]
      else []
  | None => []
  end.

(** Document validation, run by [save]. *)
Definition validate (d : Doc) : list string :=
  check_required (name d) ++ check_min (age d).

Definition valid_doc (d : Doc) : bool :=
  match validate d with [] => true | _ => false end.

(** Update validators ([runValidators: true]): only the paths the update sets. *)
Definition validate_update (u : Body.t) : list string :=
  (match Body.name u with Some s => check_required (Some s) | None => [] end)
    ++ check_min (Body.age u).

(** ** The asynchronous calls: state of the collection, result or thrown error *)

Definition Collection := list Doc.

Inductive Outcome (A : Type) :=
| Ok (a : A)
| Throw (e : Err.t).
Arguments Ok {A} a.
Arguments Throw {A} e.

Definition Async (A : Type) := Collection -> Outcome A * Collection.

Definition ret {A} (a : A) : Async A := fun c => (Ok a, c).

Definition throw {A} (e : Err.t) : Async A := fun c => (Throw e, c).

Definition bind {A B} (m : Async A) (k : A -> Async B) : Async B :=
  fun c =>
    match m c with
    | (Ok a, c') => k a c'
    | (Throw e, c') => (Throw e, c')
    end.

Declare Scope async_scope.
Delimit Scope async_scope with async.
Notation "'await' x <- m ;; k" := (bind m (fun x => k))
  (at level 100, x name, m at next level, right associativity) : async_scope.
Local Open Scope async_scope.

Definition get_collection : Async Collection := fun c => (Ok c, c).
Definition put_collection (c : Collection) : Async unit := fun _ => (Ok tt, c).

(** A driver round trip; with the connection down the buffered operation
    times out. *)
Definition driver (online : bool) (op : string) : Async unit :=
  if online then ret tt else throw (MongooseError op).

(** Runs a call and hands back its outcome instead of propagating a throw. *)
Definition attempt {A} (m : Async A) : Async (Outcome A) :=
  fun c => let (r, c') := m c in (Ok r, c').

(** ** Query conditions and the chained query helpers *)

Inductive Filter :=
| FAll                       (* {} *)
| FName (n : string)         (* { name: n } *)
| FFood (f : string)         (* { favoriteFoods: f }: the array holds f *)
| FId (o : ObjectId).        (* { _id: o } *)

Definition has_name (nm : string) (d : Doc) : bool :=
  match name d with Some m => m =? nm | None => false end.

Definition matches (f : Filter) (d : Doc) : bool :=
  match f with
  | FAll => true
  | FName n => has_name n d
  | FFood x => existsb (String.eqb x) (favoriteFoods d)
  | FId o => _id d =? o
  end.

(** Order of [sort({ name: 1 })]: a missing name sorts first, strings compare
    by code units.  Records with equal names keep their natural order. *)
Definition name_leb (a b : option string) : bool :=
  match a, b with
  | None, _ => true
  | Some _, None => false
  | Some x, Some y => String.leb x y
  end.

Fixpoint insert_by_name (d : Doc) (l : list Doc) : list Doc :=
  match l with
  | [] => [d]
  | e :: l' =>
      if name_leb (name d) (name e) then d :: l else e :: insert_by_name d l'
  end.

Fixpoint sort_by_name (l : list Doc) : list Doc :=
  match l with
  | [] => []
  | d :: l' => insert_by_name d (sort_by_name l')
  end.

(** Projection of [select('-age -__v')]. *)
Definition minus_age_v (d : Doc) : Doc :=
  {| _id := _id d; name := name d; age := None;
     favoriteFoods := favoriteFoods d; __v := None |}.

Record Query := mkQuery {
  conditions : Filter;
  sort_name : bool;
  limit_to : option nat;
  hide_age_v : bool
}.

Definition sort_name_asc (q : Query) : Query :=
  {| conditions := conditions q; sort_name := true;
     limit_to := limit_to q; hide_age_v := hide_age_v q |}.

Definition limit (n : nat) (q : Query) : Query :=
  {| conditions := conditions q; sort_name := sort_name q;
     limit_to := Some n; hide_age_v := hide_age_v q |}.

Definition select_minus_age_v (q : Query) : Query :=
  {| conditions := conditions q; sort_name := sort_name q;
     limit_to := limit_to q; hide_age_v := true |}.

(** What the server does with a query: filter, then sort, then limit, then
    project, whatever the order of the helper calls. *)
Definition run_query (q : Query) (c : Collection) : list Doc :=
  let hits := filter (matches (conditions q)) c in
  let sorted := if sort_name q then sort_by_name hits else hits in
  let cut := match limit_to q with Some n => firstn n sorted | None => sorted end in
  if hide_age_v q then map minus_age_v cut else cut.

(** ** List surgery used by the write operations *)

Fixpoint replace_first (p : Doc -> bool) (f : Doc -> Doc) (l : list Doc) : list Doc :=
  match l with
  | [] => []
  | d :: l' => if p d then f d :: l' else d :: replace_first p f l'
  end.

Fixpoint remove_first (p : Doc -> bool) (l : list Doc) : list Doc :=
  match l with
  | [] => []
  | d :: l' => if p d then l' else d :: remove_first p l'
  end.

Definition count_matching (p : Doc -> bool) (l : list Doc) : nat :=
  List.length (filter p l).

(** [$set] of the paths an update object carries. *)
Definition apply_update (u : Body.t) (d : Doc) : Doc :=
  {| _id := _id d;
     name := match Body.name u with Some n => Some n | None => name d end;
     age := match Body.age u with Some a => Some a | None => age d end;
     favoriteFoods :=
       match Body.favoriteFoods u with Some fs => fs | None => favoriteFoods d end;
     __v := __v d |}.

Definition set_favoriteFoods (fs : list string) (d : Doc) : Doc :=
  {| _id := _id d; name := name d; age := age d;
     favoriteFoods := fs; __v := __v d |}.

Definition set_v (v : nat) (d : Doc) : Doc :=
  {| _id := _id d; name := name d; age := age d;
     favoriteFoods := favoriteFoods d; __v := Some v |}.

(** [$inc: { __v: 1 }], sent along when an array path of a loaded document
    was changed. *)
Definition bump_v (d : Doc) : Doc :=
  {| _id := _id d; name := name d; age := age d;
     favoriteFoods := favoriteFoods d;
     __v := Some (S (match __v d with Some v => v | None => 0 end)) |}.

Definition same_foods (a b : list string) : bool :=
  if list_eq_dec String.string_dec a b then true else false.

Fixpoint first_error {A} (l : list (Outcome A)) : option Err.t :=
  match l with
  | [] => None
  | Throw e :: _ => Some e
  | Ok _ :: l' => first_error l'
  end.

Fixpoint successes {A} (l : list (Outcome A)) : list A :=
  match l with
  | [] => []
  | Ok a :: l' => a :: successes l'
  | Throw _ :: l' => successes l'
  end.

(** ** The model [User = mongoose.model('User', userSchema)] *)

Module User.

(** [new User(body)]: the schema's paths of the body, an empty array when
    [favoriteFoods] is absent, and a generated [_id]. *)
Definition new (seed : N) (b : Body.t) : Doc :=
  {| _id := mkObjectId seed;
     name := Body.name b;
     age := Body.age b;
     favoriteFoods := match Body.favoriteFoods b with Some fs => fs | None => [] end;
     __v := None |}.

(** [doc.save()].  [isNew] is the document's own flag: true for a document
    built by [new User], false for one a query returned.  Validation runs
    first, in the process; then a new document is inserted (the [_id] index
    refuses a duplicate) and a loaded one is written back under its [_id].
    A loaded document whose [favoriteFoods] array was changed (it differs
    from what the collection holds) is written with its version key [__v]
    incremented, and that is the document the call resolves to. *)
Definition save (online : bool) (isNew : bool) (d : Doc) : Async Doc :=
  match validate d with
  | (_ :: _) as problems => throw (ValidationError "User validation failed" problems)
  | [] =>
      if isNew then
        await _ <- driver online "users.insertOne()" ;;
        await c <- get_collection ;;
        if existsb (matches (FId (_id d))) c
        then throw (DuplicateKeyError (_id d))
        else
          let d' := set_v 0 d in
          await _ <- put_collection (c ++ [d'])%list ;;
          ret d'
      else
        await _ <- driver online "users.updateOne()" ;;
        await c <- get_collection ;;
        match List.find (matches (FId (_id d))) c with
        | None => throw (DocumentNotFoundError (_id d))
        | Some stored =>
            let d' :=
              if same_foods (favoriteFoods stored) (favoriteFoods d)
              then d else bump_v d in
            await _ <- put_collection
                         (replace_first (matches (FId (_id d))) (fun _ => d') c) ;;
            ret d'
        end
  end.

(** [User.find(conditions)], still a query. *)
Definition find (f : Filter) : Query :=
  {| conditions := f; sort_name := false; limit_to := None; hide_age_v := false |}.

(** Awaiting a query, or calling [.exec()] on it. *)
Definition exec (online : bool) (q : Query) : Async (list Doc) :=
  await _ <- driver online "users.find()" ;;
  await c <- get_collection ;;
  ret (run_query q c).

Definition findOne (online : bool) (f : Filter) : Async (option Doc) :=
  await _ <- driver online "users.findOne()" ;;
  await c <- get_collection ;;
  ret (List.find (matches f) c).

(** The [_id] condition is cast before anything is sent. *)
Definition findById (online : bool) (id : string) : Async (option Doc) :=
  match castObjectId id with
  | None => throw (CastError id)
  | Some o => findOne online (FId o)
  end.

(** [findOneAndUpdate(conditions, update, { new: true })], optionally with
    [runValidators: true]; resolves to the updated document or [null]. *)
Definition findOneAndUpdate (online : bool) (f : Filter) (u : Body.t)
    (runValidators : bool) : Async (option Doc) :=
  match (if runValidators then validate_update u else []) with
  | (_ :: _) as problems => throw (ValidationError "Validation failed" problems)
  | [] =>
      await _ <- driver online "users.findOneAndUpdate()" ;;
      await c <- get_collection ;;
      match List.find (matches f) c with
      | None => ret None
      | Some d =>
          await _ <- put_collection (replace_first (matches f) (apply_update u) c) ;;
          ret (Some (apply_update u d))
      end
  end.

Definition findByIdAndUpdate (online : bool) (id : string) (u : Body.t)
    (runValidators : bool) : Async (option Doc) :=
  match castObjectId id with
  | None => throw (CastError id)
  | Some o => findOneAndUpdate online (FId o) u runValidators
  end.

(** Resolves to the removed document or [null]. *)
Definition findByIdAndDelete (online : bool) (id : string) : Async (option Doc) :=
  match castObjectId id with
  | None => throw (CastError id)
  | Some o =>
      await _ <- driver online "users.findOneAndDelete()" ;;
      await c <- get_collection ;;
      match List.find (matches (FId o)) c with
      | None => ret None
      | Some d =>
          await _ <- put_collection (remove_first (matches (FId o)) c) ;;
          ret (Some d)
      end
  end.

(** The older name of the same operation (Mongoose before version 8). *)
Definition findByIdAndRemove (online : bool) (id : string) : Async (option Doc) :=
  findByIdAndDelete online id.

(** Resolves to [deletedCount]. *)
Definition deleteMany (online : bool) (f : Filter) : Async nat :=
  await _ <- driver online "users.deleteMany()" ;;
  await c <- get_collection ;;
  await _ <- put_collection (filter (fun d => negb (matches f d)) c) ;;
  ret (count_matching (matches f) c).

Fixpoint save_each (online : bool) (seed : N) (l : list Body.t)
    : Async (list (Outcome Doc)) :=
  match l with
  | [] => ret []
  | b :: l' =>
      await r <- attempt (save online true (new seed b)) ;;
      await rs <- save_each online (N.succ seed) l' ;;
      ret (r :: rs)
  end.

(** [User.create(array)]: [new User(x).save()] for every element; every
    element is attempted, and the call rejects with the first error if there
    was one. *)
Definition create (online : bool) (seed : N) (l : list Body.t) : Async (list Doc) :=
  await rs <- save_each online seed l ;;
  match first_error rs with
  | Some e => throw e
  | None => ret (successes rs)
  end.

End User.

(** ** Express responses *)

#[warnings="-register-all"]
Inductive Json :=
| JString (s : string)
| JNumber (n : Z)
| JDocument (d : Doc)
| JArray (l : list Doc)
| JObject (members : list (string * Json)).

Record Response := mkResponse {
  status : nat;
  body : Json
}.

Definition res (code : nat) (j : Json) : Response :=
  {| status := code; body := j |}.

Definition message (m : string) : Json := JObject [("message", JString m)].

Definition Handler := Collection -> Response * Collection.

(** [try { ... } catch (error) { ... }] around an [async] handler body. *)
Definition try_catch (m : Async Response) (h : Err.t -> Response) : Handler :=
  fun c =>
    match m c with
    | (Ok r, c') => (r, c')
    | (Throw e, c') => (h e, c')
    end.

(** [error.name === 'CastError' && error.kind === 'ObjectId'] *)
Definition is_cast_error_ObjectId (e : Err.t) : bool :=
  (Err.name e =? "CastError")
  && match Err.kind e with Some k => k =? "ObjectId" | None => false end.

Definition server_error : Response := res 500 (message "Server error").

Definition catch_id (e : Err.t) : Response :=
  if is_cast_error_ObjectId e
  then res 400 (message "Invalid User ID format")
  else server_error.

(** ** The handlers of [routes/userRoutes.js]

    [online] tells whether the storage connection is up while the request
    runs; [seed] is the identifier generator's input.  [console.error] calls
    have no effect on the response or the collection and are left out. *)

(** 1. [GET /users/] *)
Definition get_all (online : bool) : Handler :=
  try_catch
    (await users <- User.exec online (User.find FAll) ;;
     ret (res 200 (JArray users)))
    (fun _ => server_error).

(** 2. [POST /users/] *)
Definition post_user (online : bool) (seed : N) (req_body : Body.t) : Handler :=
  try_catch
    (let newUser := User.new seed req_body in
     await savedUser <- User.save online true newUser ;;
     ret (res 201 (JDocument savedUser)))
    (fun error => res 400 (message (Err.message error))).

(** 3. [PUT /users/:id].  The body is read as an object of the schema's
    paths, which Mongoose applies as [$set]; a body made of update operators
    ([$inc], [$unset], ...) is not covered by this definition. *)
Definition put_by_id (online : bool) (id : string) (req_body : Body.t) : Handler :=
  try_catch
    (let updatedUserData := req_body in
     await updatedUser <- User.findByIdAndUpdate online id updatedUserData true ;;
     match updatedUser with
     | None => ret (res 404 (message "User not found"))
     | Some u => ret (res 200 (JDocument u))
     end)
    catch_id.

(** 4. [DELETE /users/:id] *)
Definition delete_by_id (online : bool) (id : string) : Handler :=
  try_catch
    (await deletedUser <- User.findByIdAndDelete online id ;;
     match deletedUser with
     | None => ret (res 404 (message "User not found"))
     | Some d =>
         ret (res 200 (JObject [("message", JString "User deleted successfully");
                                ("deletedUser", JDocument d)]))
     end)
    catch_id.

(** 5. [POST /users/create-one] *)
Definition post_create_one (online : bool) (seed : N) (req_body : Body.t) : Handler :=
  try_catch
    (let newPerson := User.new seed req_body in
     await savedPerson <- User.save online true newPerson ;;
     ret (res 201 (JDocument savedPerson)))
    (fun error => res 400 (message (Err.message error))).

(** 6. [POST /users/create-many] *)
Definition post_create_many (online : bool) (seed : N) (req_body : ReqBody) : Handler :=
  try_catch
    (match req_body with
     | BObject _ | BArray [] =>
         ret (res 400 (message "Request body must be a non-empty array of user objects."))
     | BArray arrayOfPeople =>
         await createdPeople <- User.create online seed arrayOfPeople ;;
         ret (res 201 (JArray createdPeople))
     end)
    (fun error => res 400 (message (Err.message error))).

(** 7. [GET /users/find-by-name/:name] *)
Definition get_find_by_name (online : bool) (name : string) : Handler :=
  try_catch
    (await people <- User.exec online (User.find (FName name)) ;;
     ret (res 200 (JArray people)))
    (fun _ => server_error).

(** 8. [GET /users/find-one-food/:food] *)
Definition get_find_one_food (online : bool) (food : string) : Handler :=
  try_catch
    (await person <- User.findOne online (FFood food) ;;
     match person with
     | None => ret (res 404 (message ("No person found with favorite food: " ++ food)))
     | Some p => ret (res 200 (JDocument p))
     end)
    (fun _ => server_error).

(** 9. [GET /users/find-by-id/:id] *)
Definition get_find_by_id (online : bool) (id : string) : Handler :=
  try_catch
    (await person <- User.findById online id ;;
     match person with
     | None => ret (res 404 (message "User not found"))
     | Some p => ret (res 200 (JDocument p))
     end)
    catch_id.

(** [Array.prototype.includes] on an array of strings. *)
Definition includes (l : list string) (x : string) : bool :=
  existsb (String.eqb x) l.

(** [Array.prototype.push] of one element. *)
Definition push (l : list string) (x : string) : list string := (l ++ [x])%list.

(** 10. [PUT /users/classic-update/:id] *)
Definition put_classic_update (online : bool) (id : string) : Handler :=
  try_catch
    (await person <- User.findById online id ;;
     match person with
     | None => ret (res 404 (message "User not found for classic update"))
     | Some p =>
         let foodToAdd := "hamburger" in
         let p' :=
           if negb (includes (favoriteFoods p) foodToAdd)
           then set_favoriteFoods (push (favoriteFoods p) foodToAdd) p
           else p in
         await updatedPerson <- User.save online false p' ;;
         ret (res 200 (JDocument updatedPerson))
     end)
    catch_id.

(** 11. [PUT /users/find-one-and-update/:name] *)
Definition put_find_one_and_update (online : bool) (name : string) : Handler :=
  try_catch
    (let updatedAge := 20%Z in
     await updatedPerson <-
       User.findOneAndUpdate online (FName name)
         (Body.mk None (Some updatedAge) None) false ;;
     match updatedPerson with
     | None => ret (res 404 (message ("No person found with name: " ++ name)))
     | Some p => ret (res 200 (JDocument p))
     end)
    (fun _ => server_error).

(** 12. [DELETE /users/find-by-id-and-remove/:id] *)
Definition delete_find_by_id_and_remove (online : bool) (id : string) : Handler :=
  try_catch
    (await removedPerson <- User.findByIdAndRemove online id ;;
     match removedPerson with
     | None => ret (res 404 (message "User not found for removal"))
     | Some d =>
         ret (res 200 (JObject [("message", JString "User successfully removed");
                                ("removedPerson", JDocument d)]))
     end)
    catch_id.

(** 13. [DELETE /users/delete-many-by-name/:name] *)
Definition delete_many_by_name (online : bool) (name : string) : Handler :=
  try_catch
    (await deletedCount <- User.deleteMany online (FName name) ;;
     if Nat.eqb deletedCount 0
     then ret (res 404 (message ("No users found with name: " ++ name ++ " to delete.")))
     else
       ret (res 200
              (JObject
                 [("message",
                   JString (string_of_nat deletedCount ++ " user(s) with name " ++ dquote
                              ++ name ++ dquote ++ " successfully removed."));
                  ("deletedCount", JNumber (Z.of_nat deletedCount))])))
    (fun _ => server_error).

(** 14. [GET /users/search-burritos] *)
Definition get_search_burritos (online : bool) : Handler :=
  try_catch
    (await people <-
       User.exec online
         (select_minus_age_v (limit 2 (sort_name_asc (User.find (FFood "burritos"))))) ;;
     ret (res 200 (JArray people)))
    (fun _ => server_error).

(** ** The router: one constructor per route of [routes/userRoutes.js] *)

Inductive Request :=
| GetAll
| PostUser (req_body : Body.t)
| PutById (id : string) (req_body : Body.t)
| DeleteById (id : string)
| PostCreateOne (req_body : Body.t)
| PostCreateMany (req_body : ReqBody)
| GetFindByName (name : string)
| GetFindOneFood (food : string)
| GetFindById (id : string)
| PutClassicUpdate (id : string)
| PutFindOneAndUpdate (name : string)
| DeleteFindByIdAndRemove (id : string)
| DeleteManyByName (name : string)
| GetSearchBurritos.

Definition router (online : bool) (seed : N) (req : Request) : Handler :=
  match req with
  | GetAll => get_all online
  | PostUser b => post_user online seed b
  | PutById id b => put_by_id online id b
  | DeleteById id => delete_by_id online id
  | PostCreateOne b => post_create_one online seed b
  | PostCreateMany rb => post_create_many online seed rb
  | GetFindByName nm => get_find_by_name online nm
  | GetFindOneFood food => get_find_one_food online food
  | GetFindById id => get_find_by_id online id
  | PutClassicUpdate id => put_classic_update online id
  | PutFindOneAndUpdate nm => put_find_one_and_update online nm
  | DeleteFindByIdAndRemove id => delete_find_by_id_and_remove online id
  | DeleteManyByName nm => delete_many_by_name online nm
  | GetSearchBurritos => get_search_burritos online
  end.

(** A run of requests, each with its connection state and generator input. *)
Fixpoint serve (reqs : list (bool * N * Request)) (c : Collection) : Collection :=
  match reqs with
  | [] => c
  | (online, seed, req) :: reqs' => serve reqs' (snd (router online seed req c))
  end.

(** ** Sample data used by the examples below *)

Definition zeta : Doc :=
  {| _id := mkObjectId 1; name := Some "Zeta"; age := Some 41%Z;
     favoriteFoods := ["burritos"]; __v := Some 0 |}.

Definition alpha : Doc :=
  {| _id := mkObjectId 2; name := Some "Alpha"; age := Some 23%Z;
     favoriteFoods := ["burritos"]; __v := Some 0 |}.

Definition carl : Doc :=
  {| _id := mkObjectId 3; name := Some "Carl"; age := None;
     favoriteFoods := ["tacos"]; __v := Some 0 |}.

Definition eve : Doc :=
  {| _id := mkObjectId 5; name := Some "Eve"; age := Some (-5)%Z;
     favoriteFoods := ["Sushi"]; __v := Some 0 |}.

Definition mary (k : N) : Doc :=
  {| _id := mkObjectId (16 + k); name := Some "Mary"; age := Some 35%Z;
     favoriteFoods := ["hamburger"; "Salad"]; __v := Some 0 |}.

(** The documents [User.create] inserts when every element is accepted. *)
Fixpoint created (seed : N) (l : list Body.t) : list Doc :=
  match l with
  | [] => []
  | b :: l' => set_v 0 (User.new seed b) :: created (N.succ seed) l'
  end.

(** What the schema asks of a request body, in the words of the data model:
    a name that is present and not empty, an age that is not negative when
    there is one. *)
Definition body_ok (b : Body.t) : Prop :=
  (exists n, Body.name b = Some n /\ n <> "")
  /\ (forall a, Body.age b = Some a -> (0 <= a)%Z).

(** The same of a stored document. *)
Definition doc_ok (d : Doc) : Prop :=
  (exists n, name d = Some n /\ n <> "")
  /\ (forall a, age d = Some a -> (0 <= a)%Z).

(** What the update validators ask of an update object: a name, if the update
    sets one, is not empty; an age, if it sets one, is not negative. *)
Definition update_ok (u : Body.t) : Prop :=
  (forall n, Body.name u = Some n -> n <> "")
  /\ (forall a, Body.age u = Some a -> (0 <= a)%Z).

(** A record with its age replaced. *)
Definition with_age (a : Z) (d : Doc) : Doc :=
  {| _id := _id d; name := name d; age := Some a;
     favoriteFoods := favoriteFoods d; __v := __v d |}.

(** What the classic update saves: "hamburger" pushed unless included, with
    the version key incremented when it was pushed. *)
Definition hamburger_added (p : Doc) : Doc :=
  if negb (includes (favoriteFoods p) "hamburger")
  then bump_v (set_favoriteFoods (push (favoriteFoods p) "hamburger") p)
  else p.

(** The order of [sort({ name: 1 })] as a relation on records. *)
Definition by_name (a b : Doc) : Prop := name_leb (name a) (name b) = true.

(** One [POST /users/] per element, with consecutive generator inputs. *)
Fixpoint posts (seed : N) (l : list Body.t) : list (bool * N * Request) :=
  match l with
  | [] => []
  | b :: l' => (true, seed, PostUser b) :: posts (N.succ seed) l'
  end.

(** The invariant of the stored collection: identifiers are unique and every
    record meets the schema. *)
Definition collection_ok (c : Collection) : Prop :=
  NoDup (map _id c) /\ Forall doc_ok c.

(** * Properties *)

(** ** Identifiers: a generated identifier survives the cast of its own text *)

Lemma hex_char_lower (m : N) : (m < 16)%N -> is_lower_hex (hex_char m) = true.
Proof.
  intro H.
  assert (E : (m = 0 \/ m = 1 \/ m = 2 \/ m = 3 \/ m = 4 \/ m = 5 \/ m = 6 \/ m = 7
               \/ m = 8 \/ m = 9 \/ m = 10 \/ m = 11 \/ m = 12 \/ m = 13 \/ m = 14
               \/ m = 15)%N) by lia.
  repeat (destruct E as [E | E]; [subst m; reflexivity | ]).
  subst m; reflexivity.
Qed.

Lemma hex_digits_length (k : nat) : forall n acc,
  String.length (hex_digits k n acc) = k + String.length acc.
Proof.
  induction k as [| k IH]; intros n acc; simpl.
  - reflexivity.
  - rewrite IH. simpl. lia.
Qed.

Lemma hex_digits_lower (k : nat) : forall n acc,
  all_chars is_lower_hex acc = true ->
  all_chars is_lower_hex (hex_digits k n acc) = true.
Proof.
  induction k as [| k IH]; intros n acc Hacc; simpl.
  - exact Hacc.
  - apply IH. simpl. rewrite Hacc, hex_char_lower.
    + reflexivity.
    + apply N.mod_lt. discriminate.
Qed.

Lemma lower_hex_not_upper (c : ascii) : is_lower_hex c = true -> is_upper_hex c = false.
Proof.
  unfold is_lower_hex, is_upper_hex. cbv zeta.
  generalize (N_of_ascii c). intros n H.
  apply orb_true_iff in H.
  apply andb_false_iff.
  destruct H as [H | H]; apply andb_true_iff in H; destruct H as [H1 H2];
    apply N.leb_le in H1, H2.
  - left. apply N.leb_gt. lia.
  - right. apply N.leb_gt. lia.
Qed.

Lemma lower_hex_canonical (s : string) :
  all_chars is_lower_hex s = true ->
  all_chars is_hex s = true /\ map_chars lower s = s.
Proof.
  induction s as [| c s IH]; simpl; intro H.
  - split; reflexivity.
  - apply andb_true_iff in H. destruct H as [Hc Hs].
    destruct (IH Hs) as [IH1 IH2].
    rewrite IH1, IH2. unfold is_hex, lower.
    rewrite Hc, (lower_hex_not_upper c Hc).
    split; reflexivity.
Qed.

Lemma castObjectId_mkObjectId (seed : N) :
  castObjectId (toHexString (mkObjectId seed)) = Some (mkObjectId seed).
Proof.
  unfold castObjectId, toHexString, mkObjectId.
  rewrite hex_digits_length. simpl Nat.eqb.
  destruct (lower_hex_canonical (hex_digits 24 seed EmptyString)) as [H1 H2].
  - apply hex_digits_lower. reflexivity.
  - rewrite H1, H2. reflexivity.
Qed.

(** ** Lists: first match, replacement and removal *)

Lemma find_app_last (p : Doc -> bool) (l : list Doc) (d : Doc) :
  existsb p l = false -> p d = true -> List.find p (l ++ [d]) = Some d.
Proof.
  induction l as [| e l IH]; simpl; intros Hl Hd.
  - rewrite Hd. reflexivity.
  - apply orb_false_iff in Hl. destruct Hl as [He Hl].
    rewrite He. apply IH; assumption.
Qed.

Lemma find_matches_id (o : ObjectId) (l : list Doc) (d : Doc) :
  List.find (matches (FId o)) l = Some d -> _id d = o.
Proof.
  intro H. apply find_some in H. destruct H as [_ H].
  simpl in H. apply String.eqb_eq in H. exact H.
Qed.

Lemma find_none_not_in_ids (o : ObjectId) (l : list Doc) :
  ~ In o (map _id l) -> List.find (matches (FId o)) l = None.
Proof.
  induction l as [| e l IH]; simpl; intro H.
  - reflexivity.
  - destruct (String.eqb_spec (_id e) o) as [E | E].
    + exfalso. apply H. left. exact E.
    + apply IH. intro Hin. apply H. right. exact Hin.
Qed.

Lemma find_remove_first_id (o : ObjectId) (l : list Doc) :
  NoDup (map _id l) ->
  List.find (matches (FId o)) (remove_first (matches (FId o)) l) = None.
Proof.
  induction l as [| e l IH]; simpl; intro H.
  - reflexivity.
  - inversion H as [| x xs Hnotin Hnodup]; subst.
    destruct (String.eqb_spec (_id e) o) as [E | E].
    + subst o. apply find_none_not_in_ids. exact Hnotin.
    + simpl. destruct (String.eqb_spec (_id e) o) as [E' | _]; [contradiction |].
      apply IH. exact Hnodup.
Qed.

Lemma replace_first_same (p : Doc -> bool) (l : list Doc) (d : Doc) :
  List.find p l = Some d -> replace_first p (fun _ => d) l = l.
Proof.
  induction l as [| e l IH]; simpl; intro H.
  - reflexivity.
  - destruct (p e).
    + injection H as ->. reflexivity.
    + rewrite IH by exact H. reflexivity.
Qed.

Arguments mkObjectId : simpl never.
Arguments castObjectId : simpl never.
Arguments validate : simpl never.

(** Unfolds a handler down to the collection it works on. *)
Ltac run_handler :=
  unfold get_all, post_user, put_by_id, delete_by_id, post_create_one,
    post_create_many, get_find_by_name, get_find_one_food, get_find_by_id,
    put_classic_update, put_find_one_and_update, delete_find_by_id_and_remove,
    delete_many_by_name, get_search_burritos, try_catch, catch_id,
    User.exec, User.findById, User.findOne, User.findByIdAndUpdate,
    User.findOneAndUpdate, User.findByIdAndRemove, User.findByIdAndDelete,
    User.deleteMany, User.save, driver, bind, ret, throw,
    get_collection, put_collection.

(** ** Read-only handlers *)

Lemma exec_reads (online : bool) (q : Query) (c : Collection) :
  snd (User.exec online q c) = c.
Proof. run_handler. destruct online; reflexivity. Qed.

Lemma findOne_reads (online : bool) (f : Filter) (c : Collection) :
  snd (User.findOne online f c) = c.
Proof. run_handler. destruct online; reflexivity. Qed.

Lemma findById_reads (online : bool) (id : string) (c : Collection) :
  snd (User.findById online id c) = c.
Proof.
  unfold User.findById. destruct (castObjectId id); [apply findOne_reads | reflexivity].
Qed.

Lemma respond_after_read {A} (m : Async A) (k : A -> Async Response)
    (h : Err.t -> Response) (c : Collection) :
  snd (m c) = c -> (forall a c0, snd (k a c0) = c0) ->
  snd (try_catch (bind m k) h c) = c.
Proof.
  intros Hm Hk. unfold try_catch, bind.
  destruct (m c) as [[a | e] c1]; simpl in Hm; subst c1.
  - specialize (Hk a c). destruct (k a c) as [[r | e] c2]; exact Hk.
  - reflexivity.
Qed.

Lemma get_all_reads (online : bool) (c : Collection) :
  snd (get_all online c) = c.
Proof. apply respond_after_read; [apply exec_reads | reflexivity]. Qed.

Lemma get_find_by_name_reads (online : bool) (nm : string) (c : Collection) :
  snd (get_find_by_name online nm c) = c.
Proof. apply respond_after_read; [apply exec_reads | reflexivity]. Qed.

Lemma get_find_one_food_reads (online : bool) (food : string) (c : Collection) :
  snd (get_find_one_food online food c) = c.
Proof.
  apply respond_after_read; [apply findOne_reads |].
  intros [p |] c0; reflexivity.
Qed.

Lemma get_find_by_id_reads (online : bool) (id : string) (c : Collection) :
  snd (get_find_by_id online id c) = c.
Proof.
  apply respond_after_read; [apply findById_reads |].
  intros [p |] c0; reflexivity.
Qed.

Lemma get_search_burritos_reads (online : bool) (c : Collection) :
  snd (get_search_burritos online c) = c.
Proof. apply respond_after_read; [apply exec_reads | reflexivity]. Qed.

(** C10. Each of the five GET handlers (list all, find-by-name, find-one-food,
    find-by-id, search-burritos) leaves the stored collection exactly as it
    found it, whatever the request and whatever the outcome, with the storage
    connection up or down. *)
Theorem get_handlers_leave_collection (online : bool) (nm food id : string)
    (c : Collection) :
  snd (get_all online c) = c
  /\ snd (get_find_by_name online nm c) = c
  /\ snd (get_find_one_food online food c) = c
  /\ snd (get_find_by_id online id c) = c
  /\ snd (get_search_burritos online c) = c.
Proof.
  repeat split.
  - apply get_all_reads.
  - apply get_find_by_name_reads.
  - apply get_find_one_food_reads.
  - apply get_find_by_id_reads.
  - apply get_search_burritos_reads.
Qed.

(** The outcomes the read-only handlers can produce. *)
Lemma get_find_by_id_statuses (online : bool) (id : string) (c : Collection) :
  In (status (fst (get_find_by_id online id c))) [200; 404; 400; 500].
Proof.
  run_handler. destruct (castObjectId id) as [o |]; simpl.
  - destruct online; simpl.
    + destruct (find (matches (FId o)) c); simpl; auto.
    + auto.
  - auto.
Qed.

(** ** Malformed identifiers *)

Lemma CastError_recognised (id : string) :
  is_cast_error_ObjectId (CastError id) = true.
Proof. reflexivity. Qed.

(** C7. On each of the five routes with an [:id] parameter, an identifier the
    cast to ObjectId refuses is answered with status 400 ("Invalid User ID
    format"), never 500, and the collection is not touched; this holds for
    every body and with the connection up or down. *)
Theorem malformed_id_is_client_error (id : string) (online : bool)
    (req_body : Body.t) (c : Collection) :
  castObjectId id = None ->
  let bad := (res 400 (message "Invalid User ID format"), c) in
  put_by_id online id req_body c = bad
  /\ delete_by_id online id c = bad
  /\ get_find_by_id online id c = bad
  /\ put_classic_update online id c = bad
  /\ delete_find_by_id_and_remove online id c = bad.
Proof.
  intros H bad. subst bad.
  repeat split; run_handler; rewrite H; reflexivity.
Qed.

Lemma malformed_id_is_client_error_witness :
  castObjectId "not-an-object-id" = None
  /\ status (fst (get_find_by_id true "not-an-object-id" [])) = 400.
Proof.
  split.
  - reflexivity.
  - destruct (malformed_id_is_client_error "not-an-object-id" true
                (Body.mk None None None) [] eq_refl) as (_ & _ & H & _).
    rewrite H. reflexivity.
Defined.

(** What the cast refuses: everything that is neither 24 hexadecimal
    characters nor 12 characters in 12 bytes. *)
Lemma castObjectId_refuses_iff (id : string) :
  castObjectId id = None
  <-> (Nat.eqb (String.length id) 24 && all_chars is_hex id = false)
      /\ (Nat.eqb (String.length id) 12 && all_chars is_ascii7 id = false).
Proof.
  unfold castObjectId.
  destruct (Nat.eqb (String.length id) 24 && all_chars is_hex id);
    destruct (Nat.eqb (String.length id) 12 && all_chars is_ascii7 id);
    split; try discriminate; try (intros [? ?]; discriminate); auto.
Qed.

(** A string of 12 characters is an identifier (its bytes), so asking for it
    is answered like any identifier that no record carries. *)
Lemma twelve_character_id_is_accepted :
  castObjectId "abcdefghijkl" = Some "6162636465666768696a6b6c"
  /\ get_find_by_id true "abcdefghijkl" [zeta]
     = (res 404 (message "User not found"), [zeta])
  /\ castObjectId "abcdefghijk" = None.
Proof. repeat split. Qed.

(** ** Create, then fetch *)

Lemma post_user_created (online : bool) (seed : N) (b : Body.t) (c : Collection)
    (r : Response) (c' : Collection) :
  post_user online seed b c = (r, c') -> status r = 201 ->
  let d := set_v 0 (User.new seed b) in
  r = res 201 (JDocument d) /\ c' = (c ++ [d])%list
  /\ validate (User.new seed b) = []
  /\ existsb (matches (FId (mkObjectId seed))) c = false.
Proof.
  intros H Hs d. subst d. revert H. run_handler. intro H.
  destruct (validate (User.new seed b)) as [| p ps] eqn:V.
  - destruct online; simpl in H.
    + change (_id (User.new seed b)) with (mkObjectId seed) in H.
      destruct (existsb (matches (FId (mkObjectId seed))) c) eqn:X.
      * injection H as <- <-. discriminate Hs.
      * injection H as <- <-. repeat split; reflexivity.
    + injection H as <- <-. discriminate Hs.
  - injection H as <- <-. discriminate Hs.
Qed.

Lemma find_by_id_present (o : ObjectId) (d : Doc) (c : Collection) :
  castObjectId (toHexString o) = Some o ->
  find (matches (FId o)) c = Some d ->
  get_find_by_id true (toHexString o) c = (res 200 (JDocument d), c).
Proof.
  intros Hc Hf. run_handler. rewrite Hc. simpl. rewrite Hf. reflexivity.
Qed.

(** C2. When [POST /users/] answers 201, the body is the created record; a
    [GET /users/find-by-id/:id] that follows, with the identifier of that
    record, answers 200 with the same record, whose name and age are those of
    the request body, whose favoriteFoods are the submitted ones when the body
    had any, and whose identifier is the one assigned at creation. *)
Theorem created_then_found_by_id (online : bool) (seed : N) (b : Body.t)
    (c : Collection) (r : Response) (c' : Collection) :
  post_user online seed b c = (r, c') ->
  status r = 201 ->
  exists d : Doc,
    body r = JDocument d
    /\ get_find_by_id true (toHexString (_id d)) c' = (res 200 (JDocument d), c')
    /\ name d = Body.name b
    /\ age d = Body.age b
    /\ (forall fs, Body.favoriteFoods b = Some fs -> favoriteFoods d = fs)
    /\ _id d = mkObjectId seed.
Proof.
  intros H Hs.
  destruct (post_user_created online seed b c r c' H Hs) as (Hr & Hc' & _ & Hfresh).
  exists (set_v 0 (User.new seed b)). subst r c'.
  split; [reflexivity |]. split.
  - apply find_by_id_present.
    + apply castObjectId_mkObjectId.
    + apply find_app_last; [exact Hfresh |].
      change (String.eqb (mkObjectId seed) (mkObjectId seed) = true).
      apply String.eqb_refl.
  - cbn [name age favoriteFoods _id set_v User.new].
    repeat split. intros fs E. rewrite E. reflexivity.
Qed.

Lemma created_then_found_by_id_witness :
  exists d : Doc,
    name d = Some "John Doe" /\ age d = Some 30%Z
    /\ favoriteFoods d = ["Pizza"; "Pasta"]
    /\ get_find_by_id true (toHexString (_id d))
         (snd (post_user true 7 (Body.mk (Some "John Doe") (Some 30%Z)
                                   (Some ["Pizza"; "Pasta"])) []))
       = (res 200 (JDocument d),
          snd (post_user true 7 (Body.mk (Some "John Doe") (Some 30%Z)
                                   (Some ["Pizza"; "Pasta"])) [])).
Proof.
  destruct (created_then_found_by_id true 7
              (Body.mk (Some "John Doe") (Some 30%Z) (Some ["Pizza"; "Pasta"])) []
              (fst (post_user true 7 (Body.mk (Some "John Doe") (Some 30%Z)
                                        (Some ["Pizza"; "Pasta"])) []))
              (snd (post_user true 7 (Body.mk (Some "John Doe") (Some 30%Z)
                                        (Some ["Pizza"; "Pasta"])) []))
              eq_refl eq_refl) as (d & _ & Hget & Hn & Ha & Hf & _).
  exists d. repeat split; try assumption.
  apply Hf. reflexivity.
Defined.

(** ** Delete, then fetch *)

Lemma delete_by_id_ok (online : bool) (id : string) (c : Collection)
    (r : Response) (c' : Collection) :
  delete_by_id online id c = (r, c') -> status r = 200 ->
  exists o d,
    castObjectId id = Some o /\ online = true
    /\ find (matches (FId o)) c = Some d
    /\ c' = remove_first (matches (FId o)) c
    /\ r = res 200 (JObject [("message", JString "User deleted successfully");
                             ("deletedUser", JDocument d)]).
Proof.
  run_handler. intros H Hs.
  destruct (castObjectId id) as [o |].
  - destruct online; simpl in H.
    + destruct (find (matches (FId o)) c) as [d |] eqn:F.
      * injection H as <- <-. exists o, d.
        repeat split; try reflexivity. exact F.
      * injection H as <- <-. discriminate Hs.
    + injection H as <- <-. discriminate Hs.
  - injection H as <- <-. discriminate Hs.
Qed.

(** C3. In a collection whose identifiers are unique, once
    [DELETE /users/:id] has answered 200 for an identifier, a
    [GET /users/find-by-id/:id] that follows with the same identifier answers
    404 (not found). *)
Theorem deleted_then_not_found (online : bool) (id : string) (c : Collection)
    (r : Response) (c' : Collection) :
  NoDup (map _id c) ->
  delete_by_id online id c = (r, c') ->
  status r = 200 ->
  get_find_by_id true id c' = (res 404 (message "User not found"), c').
Proof.
  intros Hu H Hs.
  destruct (delete_by_id_ok online id c r c' H Hs) as (o & d & Hc & _ & _ & -> & _).
  run_handler. rewrite Hc. simpl.
  rewrite (find_remove_first_id o c Hu). reflexivity.
Qed.

Lemma deleted_then_not_found_witness :
  NoDup (map _id [zeta; alpha; carl])
  /\ status (fst (delete_by_id true (toHexString (_id alpha)) [zeta; alpha; carl])) = 200
  /\ status (fst (get_find_by_id true (toHexString (_id alpha))
                    (snd (delete_by_id true (toHexString (_id alpha))
                            [zeta; alpha; carl])))) = 404.
Proof.
  assert (U : NoDup (map _id [zeta; alpha; carl])).
  { repeat constructor; simpl; intuition discriminate. }
  split; [exact U |]. split; [reflexivity |].
  rewrite (deleted_then_not_found true (toHexString (_id alpha)) [zeta; alpha; carl]
             (fst (delete_by_id true (toHexString (_id alpha)) [zeta; alpha; carl]))
             (snd (delete_by_id true (toHexString (_id alpha)) [zeta; alpha; carl]))
             U eq_refl eq_refl).
  reflexivity.
Defined.

(** A stored record with a well-formed identifier can indeed be deleted. *)
Lemma delete_by_id_present (id : string) (o : ObjectId) (d : Doc) (c : Collection) :
  castObjectId id = Some o ->
  find (matches (FId o)) c = Some d ->
  delete_by_id true id c
  = (res 200 (JObject [("message", JString "User deleted successfully");
                       ("deletedUser", JDocument d)]),
     remove_first (matches (FId o)) c).
Proof.
  intros Hc Hf. run_handler. rewrite Hc. simpl. rewrite Hf. reflexivity.
Qed.

(** ** Bodies of the two delete-by-id routes *)

(** C9, as stated, fails: after a successful deletion the body of the
    response is not the deleted record but an object around it. *)
Lemma delete_body_is_not_the_record :
  status (fst (delete_by_id true (toHexString (_id zeta)) [zeta])) = 200
  /\ body (fst (delete_by_id true (toHexString (_id zeta)) [zeta])) <> JDocument zeta
  /\ status (fst (delete_find_by_id_and_remove true (toHexString (_id zeta)) [zeta])) = 200
  /\ body (fst (delete_find_by_id_and_remove true (toHexString (_id zeta)) [zeta]))
     <> JDocument zeta.
Proof.
  repeat split; try reflexivity; intro H; discriminate H.
Qed.

(** C9, amended. When the identifier is well formed, the connection is up and
    a record with that identifier is stored, both [DELETE /users/:id] and
    [DELETE /users/find-by-id-and-remove/:id] remove that record and answer
    200 with an object of two members: a message, and the deleted record
    under the key [deletedUser], respectively [removedPerson]. *)
Theorem delete_routes_wrap_the_record (id : string) (o : ObjectId) (d : Doc)
    (c : Collection) :
  castObjectId id = Some o ->
  find (matches (FId o)) c = Some d ->
  delete_by_id true id c
  = (res 200 (JObject [("message", JString "User deleted successfully");
                       ("deletedUser", JDocument d)]),
     remove_first (matches (FId o)) c)
  /\ delete_find_by_id_and_remove true id c
     = (res 200 (JObject [("message", JString "User successfully removed");
                          ("removedPerson", JDocument d)]),
        remove_first (matches (FId o)) c).
Proof.
  intros Hc Hf. split.
  - apply delete_by_id_present; assumption.
  - run_handler. rewrite Hc. simpl. rewrite Hf. reflexivity.
Qed.

Lemma delete_routes_wrap_the_record_witness :
  delete_by_id true "000000000000000000000002" [zeta; alpha; carl]
  = (res 200 (JObject [("message", JString "User deleted successfully");
                       ("deletedUser", JDocument alpha)]),
     [zeta; carl])
  /\ delete_find_by_id_and_remove true "000000000000000000000002" [zeta; alpha; carl]
     = (res 200 (JObject [("message", JString "User successfully removed");
                          ("removedPerson", JDocument alpha)]),
        [zeta; carl]).
Proof.
  exact (delete_routes_wrap_the_record "000000000000000000000002"
           (mkObjectId 2) alpha [zeta; alpha; carl] eq_refl eq_refl).
Defined.

(** ** Classic update: find, edit, save *)

Lemma find_replace_first (p : Doc -> bool) (l : list Doc) (d d' : Doc) :
  find p l = Some d -> p d' = true ->
  find p (replace_first p (fun _ => d') l) = Some d'.
Proof.
  induction l as [| e l IH]; simpl; intros H Hd'.
  - discriminate H.
  - destruct (p e) eqn:E; simpl.
    + rewrite Hd'. reflexivity.
    + rewrite E. apply IH; assumption.
Qed.

Lemma includes_In (l : list string) (x : string) :
  includes l x = true <-> In x l.
Proof.
  unfold includes. rewrite existsb_exists. split.
  - intros (y & Hy & E). apply String.eqb_eq in E. subst y. exact Hy.
  - intro H. exists x. split; [exact H | apply String.eqb_refl].
Qed.

Lemma doc_ok_validate (d : Doc) : doc_ok d -> validate d = [].
Proof.
  intros [(n & Hn & Hne) Ha]. unfold validate. rewrite Hn. simpl.
  destruct (String.eqb_spec n "") as [E | _]; [contradiction |].
  simpl. destruct (age d) as [a |]; simpl; [| reflexivity].
  specialize (Ha a eq_refl).
  destruct (Z.ltb_spec a 0) as [L | _]; [lia | reflexivity].
Qed.

Lemma validate_doc_ok (d : Doc) : validate d = [] -> doc_ok d.
Proof.
  unfold validate, doc_ok. intro H.
  apply app_eq_nil in H. destruct H as [Hn Ha]. split.
  - destruct (name d) as [n |]; simpl in Hn; [| discriminate Hn].
    exists n. split; [reflexivity |].
    destruct (String.eqb_spec n "") as [E | E]; [discriminate Hn | exact E].
  - intros a E. rewrite E in Ha. simpl in Ha.
    destruct (Z.ltb_spec a 0) as [L | L]; [discriminate Ha | exact L].
Qed.

Lemma find_first_split (p : Doc -> bool) (l : list Doc) (d : Doc) :
  find p l = Some d ->
  exists l1 l2,
    l = (l1 ++ d :: l2)%list /\ p d = true
    /\ (forall e, In e l1 -> p e = false)
    /\ (forall f, replace_first p f l = (l1 ++ f d :: l2)%list)
    /\ remove_first p l = (l1 ++ l2)%list.
Proof.
  induction l as [| e l IH]; intro H.
  - discriminate H.
  - simpl in H. destruct (p e) eqn:E.
    + injection H as H. subst e. exists [], l.
      split; [reflexivity |]. split; [exact E |].
      split; [intros e [] |]. simpl. rewrite E.
      split; [intro f |]; reflexivity.
    + destruct (IH H) as (l1 & l2 & -> & Hd & Hl1 & Hr & Hm).
      exists (e :: l1), l2.
      split; [reflexivity |]. split; [exact Hd |]. split.
      * intros x [<- | Hx]; [exact E | apply Hl1; exact Hx].
      * simpl. rewrite E. split.
        -- intro f. rewrite Hr. reflexivity.
        -- rewrite Hm. reflexivity.
Qed.

Lemma find_first_of_split (p : Doc -> bool) (l1 l2 : list Doc) (d : Doc) :
  (forall e, In e l1 -> p e = false) -> p d = true ->
  find p (l1 ++ d :: l2) = Some d.
Proof.
  intros Hl1 Hd. induction l1 as [| e l1 IH]; simpl.
  - rewrite Hd. reflexivity.
  - rewrite (Hl1 e (or_introl eq_refl)). apply IH.
    intros x Hx. apply Hl1. right. exact Hx.
Qed.

Lemma same_foods_refl (l : list string) : same_foods l l = true.
Proof.
  unfold same_foods. destruct (list_eq_dec String.string_dec l l); congruence.
Qed.

Lemma same_foods_pushed (l : list string) (x : string) :
  same_foods l (push l x) = false.
Proof.
  unfold same_foods, push.
  destruct (list_eq_dec String.string_dec l (l ++ [x])) as [E | _]; [| reflexivity].
  apply (f_equal (@List.length string)) in E. rewrite length_app in E.
  simpl in E. lia.
Qed.

Lemma save_refuses_invalid (online isNew : bool) (d : Doc) (c : Collection) :
  validate d <> [] ->
  User.save online isNew d c
  = (Throw (ValidationError "User validation failed" (validate d)), c).
Proof.
  intro V. unfold User.save. destruct (validate d); [contradiction | reflexivity].
Qed.

Lemma save_loaded_found (d stored : Doc) (c : Collection) :
  validate d = [] ->
  find (matches (FId (_id d))) c = Some stored ->
  let d' := if same_foods (favoriteFoods stored) (favoriteFoods d)
            then d else bump_v d in
  User.save true false d c
  = (Ok d', replace_first (matches (FId (_id d))) (fun _ => d') c).
Proof.
  intros V F d'. subst d'. unfold User.save. rewrite V.
  unfold bind, driver, ret, get_collection, put_collection. rewrite F. reflexivity.
Qed.

Lemma findById_found (id : string) (o : ObjectId) (p : Doc) (c : Collection) :
  castObjectId id = Some o -> find (matches (FId o)) c = Some p ->
  User.findById true id c = (Ok (Some p), c).
Proof.
  intros Hc F. unfold User.findById. rewrite Hc.
  unfold User.findOne, bind, driver, ret, get_collection. rewrite F. reflexivity.
Qed.

Lemma validate_hamburger_added (p : Doc) : validate (hamburger_added p) = validate p.
Proof.
  unfold hamburger_added. destruct (negb _); reflexivity.
Qed.

Lemma id_hamburger_added (p : Doc) : _id (hamburger_added p) = _id p.
Proof.
  unfold hamburger_added. destruct (negb _); reflexivity.
Qed.

Lemma classic_update_on_found (id : string) (o : ObjectId) (p : Doc)
    (c : Collection) :
  castObjectId id = Some o -> find (matches (FId o)) c = Some p ->
  put_classic_update true id c
  = match validate (hamburger_added p) with
    | [] => (res 200 (JDocument (hamburger_added p)),
             replace_first (matches (FId o)) (fun _ => hamburger_added p) c)
    | _ :: _ => (server_error, c)
    end.
Proof.
  intros Hc F. pose proof (find_matches_id o c p F) as Hid.
  rewrite validate_hamburger_added.
  unfold put_classic_update, try_catch. unfold bind at 1.
  rewrite (findById_found id o p c Hc F). cbv beta iota zeta. unfold bind, ret.
  set (p' := if negb (includes (favoriteFoods p) "hamburger")
             then set_favoriteFoods (push (favoriteFoods p) "hamburger") p
             else p).
  assert (Vp : validate p' = validate p)
    by (subst p'; destruct (negb _); reflexivity).
  assert (Ip : _id p' = o) by (subst p'; destruct (negb _); exact Hid).
  destruct (validate p) as [| q qs] eqn:V.
  - rewrite (save_loaded_found p' p c); [| exact Vp | rewrite Ip; exact F].
    rewrite Ip.
    assert (E : (if same_foods (favoriteFoods p) (favoriteFoods p')
                 then p' else bump_v p') = hamburger_added p).
    { subst p'. unfold hamburger_added.
      destruct (includes (favoriteFoods p) "hamburger"); cbn [negb].
      - rewrite same_foods_refl. reflexivity.
      - cbn [favoriteFoods set_favoriteFoods]. rewrite same_foods_pushed.
        reflexivity. }
    rewrite E. reflexivity.
  - rewrite save_refuses_invalid; [reflexivity |].
    rewrite Vp. discriminate.
Qed.

(** C4, as stated, fails: for a stored record that does not meet the schema
    (here one with a negative age) the classic update does not append,
    persist and answer 200; saving it fails validation and the answer is 500,
    with the collection left as it was. *)
Lemma classic_update_on_invalid_record :
  put_classic_update true "000000000000000000000005" [zeta; eve]
  = (res 500 (message "Server error"), [zeta; eve])
  /\ status (fst (put_classic_update true "000000000000000000000005" [zeta; eve]))
     <> 200.
Proof. split; [reflexivity | discriminate]. Qed.

(** C4, amended. [PUT /users/classic-update/:id], connection up, identifier
    well formed.  If no record has the identifier the answer is 404 and
    nothing changes.  If a record [p] that meets the schema has it: when
    "hamburger" is already among its favoriteFoods the answer is 200 with [p]
    itself and the collection is unchanged, so no duplicate is appended;
    otherwise the answer is 200 with a record whose favoriteFoods are those of
    [p] followed by "hamburger", whose identifier, name and age are those of
    [p] and whose version key is one more, and that record has taken the
    place of [p] in the collection, all other records being left alone.  If
    the record does not meet the schema the answer is 500 and nothing
    changes. *)
Theorem classic_update_appends_hamburger_once (id : string) (o : ObjectId)
    (c : Collection) :
  castObjectId id = Some o ->
  (find (matches (FId o)) c = None ->
   put_classic_update true id c
   = (res 404 (message "User not found for classic update"), c))
  /\ (forall p, find (matches (FId o)) c = Some p ->
      (doc_ok p -> In "hamburger" (favoriteFoods p) ->
       put_classic_update true id c = (res 200 (JDocument p), c))
      /\ (doc_ok p -> ~ In "hamburger" (favoriteFoods p) ->
          exists p' l1 l2,
            put_classic_update true id c
            = (res 200 (JDocument p'), (l1 ++ p' :: l2)%list)
            /\ c = (l1 ++ p :: l2)%list
            /\ favoriteFoods p' = (favoriteFoods p ++ ["hamburger"])%list
            /\ _id p' = _id p /\ name p' = name p /\ age p' = age p
            /\ __v p' = Some (S (match __v p with Some v => v | None => 0 end))
            /\ find (matches (FId o)) (l1 ++ p' :: l2) = Some p')
      /\ (~ doc_ok p ->
          put_classic_update true id c = (res 500 (message "Server error"), c))).
Proof.
  intro Hc. split.
  - intro Hf. run_handler. rewrite Hc. simpl. rewrite Hf. reflexivity.
  - intros p Hf. pose proof (find_matches_id o c p Hf) as Hid.
    pose proof (classic_update_on_found id o p c Hc Hf) as R.
    rewrite validate_hamburger_added in R.
    split; [| split].
    + intros Hok Hin. apply includes_In in Hin.
      rewrite R, (doc_ok_validate p Hok).
      unfold hamburger_added. rewrite Hin. cbn [negb].
      rewrite (replace_first_same _ c p Hf). reflexivity.
    + intros Hok Hnot.
      assert (Hinc : includes (favoriteFoods p) "hamburger" = false).
      { destruct (includes (favoriteFoods p) "hamburger") eqn:E; [| reflexivity].
        apply includes_In in E. contradiction. }
      rewrite (doc_ok_validate p Hok) in R.
      destruct (find_first_split _ c p Hf) as (l1 & l2 & Ec & Hp & Hl1 & Hr & _).
      rewrite Hr in R.
      exists (hamburger_added p), l1, l2.
      split; [exact R |]. split; [exact Ec |].
      unfold hamburger_added. rewrite Hinc. cbn [negb].
      repeat split.
      apply find_first_of_split; [exact Hl1 |].
      simpl. rewrite Hid. apply String.eqb_refl.
    + intro Hbad. rewrite R.
      destruct (validate p) as [| q qs] eqn:V; [| reflexivity].
      exfalso. apply Hbad. apply validate_doc_ok. exact V.
Qed.

Lemma classic_update_appends_hamburger_once_witness :
  put_classic_update true "000000000000000000000010" [zeta; mary 0]
  = (res 200 (JDocument (mary 0)), [zeta; mary 0])
  /\ (exists p',
        fst (put_classic_update true "000000000000000000000001" [zeta; mary 0])
        = res 200 (JDocument p')
        /\ favoriteFoods p' = ["burritos"; "hamburger"]
        /\ __v p' = Some 1)
  /\ put_classic_update true "000000000000000000000004" [zeta; mary 0]
     = (res 404 (message "User not found for classic update"), [zeta; mary 0])
  /\ put_classic_update true "000000000000000000000005" [zeta; eve]
     = (res 500 (message "Server error"), [zeta; eve]).
Proof.
  assert (Hz : doc_ok zeta).
  { split; [exists "Zeta"; split; [reflexivity | discriminate] |].
    intros a E. injection E as <-. lia. }
  assert (Hm : doc_ok (mary 0)).
  { split; [exists "Mary"; split; [reflexivity | discriminate] |].
    intros a E. injection E as <-. lia. }
  assert (He : ~ doc_ok eve).
  { intros [_ H]. specialize (H (-5)%Z eq_refl). lia. }
  split; [| split; [| split]].
  - destruct (classic_update_appends_hamburger_once "000000000000000000000010"
                (mkObjectId 16) [zeta; mary 0] eq_refl) as [_ H].
    destruct (H (mary 0) eq_refl) as [H1 _].
    apply H1; [exact Hm | simpl; auto].
  - destruct (classic_update_appends_hamburger_once "000000000000000000000001"
                (mkObjectId 1) [zeta; mary 0] eq_refl) as [_ H].
    destruct (H zeta eq_refl) as (_ & H2 & _).
    destruct (H2 Hz) as (p' & l1 & l2 & E & _ & Hf & _ & _ & _ & Hv & _).
    + simpl. intros [E | []]. discriminate E.
    + exists p'. rewrite E. repeat split; assumption.
  - destruct (classic_update_appends_hamburger_once "000000000000000000000004"
                (mkObjectId 4) [zeta; mary 0] eq_refl) as [H _].
    apply H. reflexivity.
  - destruct (classic_update_appends_hamburger_once "000000000000000000000005"
                (mkObjectId 5) [zeta; eve] eq_refl) as [_ H].
    destruct (H eve eq_refl) as (_ & _ & H3).
    apply H3. exact He.
Defined.

(** ** Delete many by name *)

Lemma has_name_iff (nm : string) (d : Doc) :
  has_name nm d = true <-> name d = Some nm.
Proof.
  unfold has_name. destruct (name d) as [m |].
  - rewrite String.eqb_eq. split; [intros -> | intros [= ->]]; reflexivity.
  - split; discriminate.
Qed.

Lemma filter_out_then_filter (p : Doc -> bool) (l : list Doc) :
  filter p (filter (fun d => negb (p d)) l) = [].
Proof.
  induction l as [| e l IH]; simpl.
  - reflexivity.
  - destruct (p e) eqn:E; simpl; [| rewrite E]; exact IH.
Qed.

(** C8. [DELETE /users/delete-many-by-name/:name], connection up, with [n]
    the number of stored records whose name is the parameter.  The records
    left are exactly those with another name (or none).  If [n = 0] the answer
    is 404.  If [n > 0] the answer is 200, the body reports [deletedCount] [n]
    next to a message, and a [GET /users/find-by-name/:name] that follows for
    the same name answers 200 with the empty list. *)
Theorem delete_many_by_name_removes_all (nm : string) (c : Collection) :
  let n := List.length (filter (has_name nm) c) in
  let r := fst (delete_many_by_name true nm c) in
  let c' := snd (delete_many_by_name true nm c) in
  (forall d, In d c' <-> In d c /\ name d <> Some nm)
  /\ (n = 0 -> status r = 404)
  /\ (0 < n ->
      status r = 200
      /\ (exists msg, body r = JObject [("message", JString msg);
                                        ("deletedCount", JNumber (Z.of_nat n))])
      /\ get_find_by_name true nm c' = (res 200 (JArray []), c')).
Proof.
  intros n r c'.
  assert (Hc' : c' = filter (fun d => negb (has_name nm d)) c).
  { subst c'. run_handler. simpl. unfold count_matching.
    destruct (Nat.eqb _ 0); reflexivity. }
  assert (Hr : r = if Nat.eqb n 0
                   then res 404 (message ("No users found with name: " ++ nm ++ " to delete."))
                   else res 200
                          (JObject
                             [("message",
                               JString (string_of_nat n ++ " user(s) with name " ++ dquote
                                          ++ nm ++ dquote ++ " successfully removed."));
                              ("deletedCount", JNumber (Z.of_nat n))])).
  { subst r n. run_handler. simpl. unfold count_matching.
    change (matches (FName nm)) with (has_name nm).
    destruct (Nat.eqb _ 0); reflexivity. }
  split; [| split].
  - intro d. rewrite Hc', filter_In, negb_true_iff.
    rewrite <- has_name_iff. destruct (has_name nm d); intuition congruence.
  - intro E. rewrite Hr, E. reflexivity.
  - intro L. rewrite Hr. destruct (Nat.eqb_spec n 0) as [E | _]; [lia |].
    split; [reflexivity |]. split.
    + eexists. reflexivity.
    + rewrite Hc'. run_handler. simpl. unfold run_query. simpl.
      change (matches (FName nm)) with (has_name nm).
      rewrite filter_out_then_filter. reflexivity.
Qed.

Lemma delete_many_by_name_removes_all_witness :
  status (fst (delete_many_by_name true "Mary" [mary 0; zeta; mary 1; mary 2])) = 200
  /\ (exists msg,
        body (fst (delete_many_by_name true "Mary" [mary 0; zeta; mary 1; mary 2]))
        = JObject [("message", JString msg); ("deletedCount", JNumber 3)])
  /\ get_find_by_name true "Mary"
       (snd (delete_many_by_name true "Mary" [mary 0; zeta; mary 1; mary 2]))
     = (res 200 (JArray []),
        snd (delete_many_by_name true "Mary" [mary 0; zeta; mary 1; mary 2]))
  /\ status (fst (delete_many_by_name true "Mary" [zeta; alpha])) = 404.
Proof.
  destruct (delete_many_by_name_removes_all "Mary" [mary 0; zeta; mary 1; mary 2])
    as (_ & _ & H).
  destruct (H ltac:(simpl; lia)) as (H1 & H2 & H3).
  destruct (delete_many_by_name_removes_all "Mary" [zeta; alpha]) as (_ & H0 & _).
  split; [exact H1 |]. split; [exact H2 |]. split; [exact H3 |].
  exact (H0 eq_refl).
Defined.

(** ** Search with chained helpers *)




(** ** Create many *)

Lemma body_ok_validate (seed : N) (b : Body.t) :
  body_ok b -> validate (User.new seed b) = [].
Proof.
  intro H. apply doc_ok_validate. exact H.
Qed.

Lemma existsb_id_false (o : ObjectId) (c : Collection) :
  ~ In o (map _id c) -> existsb (matches (FId o)) c = false.
Proof.
  induction c as [| e c IH]; simpl; intro H.
  - reflexivity.
  - destruct (String.eqb_spec (_id e) o) as [E | _].
    + exfalso. apply H. left. exact E.
    + apply IH. intro Hin. apply H. right. exact Hin.
Qed.

Lemma save_new_ok (seed : N) (b : Body.t) (c : Collection) :
  body_ok b -> ~ In (mkObjectId seed) (map _id c) ->
  User.save true true (User.new seed b) c
  = (Ok (set_v 0 (User.new seed b)), (c ++ [set_v 0 (User.new seed b)])%list).
Proof.
  intros Hb Hfresh. run_handler.
  rewrite (body_ok_validate seed b Hb). simpl.
  change (_id (User.new seed b)) with (mkObjectId seed).
  rewrite (existsb_id_false _ c Hfresh). reflexivity.
Qed.

Lemma save_each_all_ok (l : list Body.t) : forall (seed : N) (c : Collection),
  Forall body_ok l ->
  NoDup (map _id c ++ map _id (created seed l)) ->
  User.save_each true seed l c
  = (Ok (map Ok (created seed l)), (c ++ created seed l)%list).
Proof.
  induction l as [| b l IH]; intros seed c Hok Hfresh.
  - simpl. unfold ret. rewrite app_nil_r. reflexivity.
  - inversion Hok as [| b' l' Hb Hl]; subst.
    change (created seed (b :: l))
      with (set_v 0 (User.new seed b) :: created (N.succ seed) l) in *.
    change (User.save_each true seed (b :: l))
      with (bind (attempt (User.save true true (User.new seed b)))
              (fun r => bind (User.save_each true (N.succ seed) l)
                          (fun rs => ret (r :: rs)))).
    unfold bind at 1, attempt.
    rewrite save_new_ok.
    + unfold bind. rewrite IH.
      * unfold ret. rewrite <- app_assoc. reflexivity.
      * exact Hl.
      * rewrite map_app, <- app_assoc. exact Hfresh.
    + exact Hb.
    + apply NoDup_remove_2 in Hfresh. intro Hin. apply Hfresh.
      apply in_or_app. left. exact Hin.
Qed.

Lemma first_error_all_ok {A} (l : list A) : first_error (map Ok l) = None.
Proof. induction l; simpl; auto. Qed.

Lemma successes_all_ok {A} (l : list A) : successes (map Ok l) = l.
Proof. induction l; simpl; congruence. Qed.

Lemma save_each_resolves (online : bool) (l : list Body.t) :
  forall (seed : N) (c : Collection),
    exists rs c', User.save_each online seed l c = (Ok rs, c').
Proof.
  induction l as [| b l IH]; intros seed c.
  - exists [], c. reflexivity.
  - change (User.save_each online seed (b :: l))
      with (bind (attempt (User.save online true (User.new seed b)))
              (fun r => bind (User.save_each online (N.succ seed) l)
                          (fun rs => ret (r :: rs)))).
    unfold bind at 1, attempt.
    destruct (User.save online true (User.new seed b) c) as [r c1].
    destruct (IH (N.succ seed) c1) as (rs & c2 & E).
    unfold bind. rewrite E. exists (r :: rs), c2. reflexivity.
Qed.

Lemma save_refuses_bad_body (online : bool) (seed : N) (b : Body.t)
    (c : Collection) :
  ~ body_ok b -> exists e, User.save online true (User.new seed b) c = (Throw e, c).
Proof.
  intro H. unfold User.save.
  destruct (validate (User.new seed b)) as [| q qs] eqn:V.
  - exfalso. apply H. apply validate_doc_ok in V. exact V.
  - eexists. reflexivity.
Qed.

Lemma save_each_reports_bad_body (online : bool) (l : list Body.t) :
  forall (seed : N) (c : Collection),
    Exists (fun b => ~ body_ok b) l ->
    exists rs c' e,
      User.save_each online seed l c = (Ok rs, c') /\ first_error rs = Some e.
Proof.
  induction l as [| b l IH]; intros seed c H.
  - inversion H.
  - change (User.save_each online seed (b :: l))
      with (bind (attempt (User.save online true (User.new seed b)))
              (fun r => bind (User.save_each online (N.succ seed) l)
                          (fun rs => ret (r :: rs)))).
    unfold bind at 1, attempt.
    inversion H as [b' l' Hb | b' l' Hl]; subst.
    + destruct (save_refuses_bad_body online seed b c Hb) as (e & E). rewrite E.
      destruct (save_each_resolves online l (N.succ seed) c) as (rs & c2 & E2).
      unfold bind. rewrite E2. exists (Throw e :: rs), c2, e. split; reflexivity.
    + destruct (User.save online true (User.new seed b) c) as [r c1].
      destruct (IH (N.succ seed) c1 Hl) as (rs & c2 & e & E2 & F).
      unfold bind. rewrite E2.
      destruct r as [d | e0].
      * exists (Ok d :: rs), c2, e. split; [reflexivity | exact F].
      * exists (Throw e0 :: rs), c2, e0. split; reflexivity.
Qed.

(** C6, as stated, fails: a non-empty array is not always inserted and
    answered with 201; with an element the schema refuses (here one without a
    name) the answer is 400. *)
Lemma create_many_nonempty_array_refused :
  post_create_many true 1 (BArray [Body.mk None (Some 25%Z) (Some ["Sushi"])]) []
  = (res 400 (message "User validation failed: name: Path `name` is required."), [])
  /\ status (fst (post_create_many true 1
                    (BArray [Body.mk None (Some 25%Z) (Some ["Sushi"])]) [])) <> 201.
Proof. split; [reflexivity | discriminate]. Qed.

(** C6, amended. [POST /users/create-many] answers 400 and inserts nothing
    when the body is not an array or is the empty array.  For a non-empty
    array whose elements all meet the schema (a non-empty name, no negative
    age), with the connection up and generated identifiers that are unused,
    it appends one record per element, in order, and answers 201 with the
    array of those records.  A non-empty array with an element that does not
    meet the schema is answered with 400. *)
Theorem create_many_checks_then_inserts (seed : N) (c : Collection) :
  (forall online o,
      post_create_many online seed (BObject o) c
      = (res 400 (message "Request body must be a non-empty array of user objects."), c))
  /\ (forall online,
         post_create_many online seed (BArray []) c
         = (res 400 (message "Request body must be a non-empty array of user objects."), c))
  /\ (forall l,
         l <> [] -> Forall body_ok l ->
         NoDup (map _id c ++ map _id (created seed l)) ->
         post_create_many true seed (BArray l) c
         = (res 201 (JArray (created seed l)), (c ++ created seed l)%list)
         /\ List.length (created seed l) = List.length l)
  /\ (forall online l,
         Exists (fun b => ~ body_ok b) l ->
         status (fst (post_create_many online seed (BArray l) c)) = 400).
Proof.
  split; [| split; [| split]]; [reflexivity | reflexivity | |].
  2: { intros online l H.
       destruct (save_each_reports_bad_body online l seed c H)
         as (rs & c' & e & E & F).
       destruct l as [| b l]; [inversion H |].
       unfold post_create_many, try_catch, User.create.
       unfold bind at 1. unfold bind at 1.
       rewrite E, F. reflexivity. }
  - intros l Hne Hok Hfresh. split.
    + destruct l as [| b l]; [contradiction |].
      unfold post_create_many, try_catch, User.create.
      unfold bind at 1. unfold bind at 1.
      rewrite (save_each_all_ok (b :: l) seed c Hok Hfresh).
      rewrite first_error_all_ok, successes_all_ok. reflexivity.
    + clear. revert seed. induction l as [| b l IH]; intro seed; simpl.
      * reflexivity.
      * rewrite IH. reflexivity.
Qed.

Lemma create_many_checks_then_inserts_witness :
  post_create_many true 32
    (BArray [Body.mk (Some "Bob") (Some 25%Z) (Some ["Sushi"; "Ramen"]);
             Body.mk (Some "Frank") None None]) [zeta]
  = (res 201
       (JArray [mkDoc (mkObjectId 32) (Some "Bob") (Some 25%Z) ["Sushi"; "Ramen"] (Some 0);
                mkDoc (mkObjectId 33) (Some "Frank") None [] (Some 0)]),
     [zeta;
      mkDoc (mkObjectId 32) (Some "Bob") (Some 25%Z) ["Sushi"; "Ramen"] (Some 0);
      mkDoc (mkObjectId 33) (Some "Frank") None [] (Some 0)]).
Proof.
  destruct (create_many_checks_then_inserts 32 [zeta]) as (_ & _ & H & _).
  apply H.
  - discriminate.
  - repeat constructor; try (eexists; split; [reflexivity | discriminate]);
      simpl; intros a E; try discriminate E; injection E as <-; lia.
  - repeat constructor; simpl; intuition discriminate.
Defined.

(** ** Validation failures *)

(** The two single-record create routes answer a validation failure with 400
    and the validation message, and insert nothing. *)
Lemma create_validation_failure_is_400 (online : bool) (seed : N) (b : Body.t)
    (c : Collection) :
  validate (User.new seed b) <> [] ->
  let bad :=
    (res 400 (message (Err.message
                         (ValidationError "User validation failed"
                            (validate (User.new seed b))))), c) in
  post_user online seed b c = bad /\ post_create_one online seed b c = bad.
Proof.
  intros H bad. subst bad. run_handler.
  destruct (validate (User.new seed b)) as [| p ps]; [contradiction |].
  split; reflexivity.
Qed.

(** A request body without a name, or with a negative age, does fail
    validation. *)
Lemma bad_body_fails_validation (seed : N) (b : Body.t) :
  Body.name b = None \/ (exists a, Body.age b = Some a /\ (a < 0)%Z) ->
  validate (User.new seed b) <> [].
Proof.
  intros H V. apply validate_doc_ok in V. destruct V as [(n & Hn & _) Ha].
  destruct H as [H | (a & H & L)].
  - simpl in Hn. rewrite H in Hn. discriminate Hn.
  - specialize (Ha a H). lia.
Qed.

(** On [PUT /users/:id] the update validators run, but their failure falls
    through the [catch] block to the generic 500. *)
Lemma put_by_id_validation_failure (online : bool) (id : string) (o : ObjectId)
    (u : Body.t) (c : Collection) :
  castObjectId id = Some o ->
  validate_update u <> [] ->
  put_by_id online id u c = (res 500 (message "Server error"), c).
Proof.
  intros Hc H. run_handler. rewrite Hc.
  destruct (validate_update u) as [| p ps]; [contradiction |].
  reflexivity.
Qed.

(** C5. The claim holds on the create routes (see
    [create_validation_failure_is_400]) and fails on the update route it
    names: [PUT /users/:id] for a stored record with body [{ age: -1 }], or
    with body [{ name: "" }], is answered with status 500 and the message
    "Server error", not with 400 and the validation message, while
    [POST /users/] with the same negative age is answered with 400 and the
    validation message. *)
Theorem put_by_id_invalid_update_is_500 :
  put_by_id true "000000000000000000000001" (Body.mk None (Some (-1)%Z) None) [zeta]
  = (res 500 (message "Server error"), [zeta])
  /\ put_by_id true "000000000000000000000001" (Body.mk (Some "") None None) [zeta]
     = (res 500 (message "Server error"), [zeta])
  /\ post_user true 9 (Body.mk (Some "Zeta") (Some (-1)%Z) None) [zeta]
     = (res 400
          (message
             "User validation failed: age: Path `age` (-1) is less than minimum allowed value (0)."),
        [zeta]).
Proof. repeat split. Qed.

(** ** The collection invariant is kept by every route *)

Section ListSurgery.

Variable p : Doc -> bool.

Lemma replace_first_ids (f : Doc -> Doc) (l : list Doc) :
  (forall d, p d = true -> _id (f d) = _id d) ->
  map _id (replace_first p f l) = map _id l.
Proof.
  intro Hf. induction l as [| e l IH]; simpl.
  - reflexivity.
  - destruct (p e) eqn:E; simpl.
    + rewrite (Hf e E). reflexivity.
    + rewrite IH. reflexivity.
Qed.

Lemma replace_first_Forall (P : Doc -> Prop) (f : Doc -> Doc) (l : list Doc) :
  (forall d, P d -> p d = true -> P (f d)) ->
  Forall P l -> Forall P (replace_first p f l).
Proof.
  intros Hf H. induction H as [| e l He Hl IH]; simpl.
  - constructor.
  - destruct (p e) eqn:E; constructor; auto.
Qed.

Lemma remove_first_In (d : Doc) (l : list Doc) :
  In d (remove_first p l) -> In d l.
Proof.
  induction l as [| e l IH]; simpl.
  - auto.
  - destruct (p e); simpl; intuition.
Qed.

Lemma remove_first_ok (l : list Doc) :
  collection_ok l -> collection_ok (remove_first p l).
Proof.
  intros [Hu Hd]. split.
  - induction l as [| e l IH]; simpl in *.
    + constructor.
    + inversion Hu as [| x xs Hnotin Hnodup]; subst.
      inversion Hd as [| y ys _ Hd']; subst.
      destruct (p e); [exact Hnodup |].
      simpl. constructor; [| apply IH; assumption].
      intro Hin. apply Hnotin.
      apply in_map_iff in Hin. destruct Hin as (d & E & Hin).
      apply in_map_iff. exists d. split; [exact E |].
      apply remove_first_In. exact Hin.
  - apply Forall_forall. intros d Hin.
    apply (proj1 (Forall_forall _ _) Hd). apply remove_first_In. exact Hin.
Qed.

Lemma filter_ok (l : list Doc) :
  collection_ok l -> collection_ok (filter p l).
Proof.
  intros [Hu Hd]. split.
  - induction l as [| e l IH]; simpl in *.
    + constructor.
    + inversion Hu as [| x xs Hnotin Hnodup]; subst.
      inversion Hd as [| y ys _ Hd']; subst.
      destruct (p e); [| apply IH; assumption].
      simpl. constructor; [| apply IH; assumption].
      intro Hin. apply Hnotin.
      apply in_map_iff in Hin. destruct Hin as (d & E & Hin).
      apply in_map_iff. exists d. split; [exact E |].
      apply filter_In in Hin. apply Hin.
  - apply Forall_forall. intros d Hin. apply filter_In in Hin.
    apply (proj1 (Forall_forall _ _) Hd). apply Hin.
Qed.

Lemma replace_first_ok (f : Doc -> Doc) (l : list Doc) :
  (forall d, p d = true -> _id (f d) = _id d) ->
  (forall d, doc_ok d -> p d = true -> doc_ok (f d)) ->
  collection_ok l -> collection_ok (replace_first p f l).
Proof.
  intros Hid Hok [Hu Hd]. split.
  - rewrite replace_first_ids by exact Hid. exact Hu.
  - apply replace_first_Forall; assumption.
Qed.

End ListSurgery.

Lemma apply_update_ok (u : Body.t) (d : Doc) :
  validate_update u = [] -> doc_ok d -> doc_ok (apply_update u d).
Proof.
  unfold validate_update. intros V [Hn Ha].
  apply app_eq_nil in V. destruct V as [Vn Va]. split; simpl.
  - destruct (Body.name u) as [s |]; [| exact Hn].
    exists s. split; [reflexivity |].
    simpl in Vn. destruct (String.eqb_spec s "") as [E | E];
      [discriminate Vn | exact E].
  - destruct (Body.age u) as [a |]; [| exact Ha].
    intros a' E. injection E as <-. simpl in Va.
    destruct (Z.ltb_spec a 0) as [L | L]; [discriminate Va | exact L].
Qed.

Lemma save_new_keeps_ok (online : bool) (d : Doc) (c : Collection) :
  collection_ok c -> collection_ok (snd (User.save online true d c)).
Proof.
  intros [Hu Hd]. run_handler.
  destruct (validate d) as [| q qs] eqn:V; [| split; assumption].
  destruct online; simpl; [| split; assumption].
  destruct (existsb (matches (FId (_id d))) c) eqn:X; simpl; [split; assumption |].
  split.
  - rewrite map_app. simpl.
    assert (Hfresh : ~ In (_id d) (map _id c)).
    { intro Hin. apply in_map_iff in Hin. destruct Hin as (e & E & Hin).
      assert (T : existsb (matches (FId (_id d))) c = true).
      { apply existsb_exists. exists e. split; [exact Hin |].
        simpl. rewrite E. apply String.eqb_refl. }
      rewrite T in X. discriminate X. }
    clear X. induction c as [| e c IH]; simpl in *.
    + constructor; [intros [] | constructor].
    + inversion Hu as [| x xs Hnotin Hnodup]; subst.
      inversion Hd as [| y ys _ Hd']; subst.
      constructor.
      * intro Hin. apply in_app_or in Hin. destruct Hin as [Hin | [E | []]].
        -- contradiction.
        -- apply Hfresh. left. symmetry. exact E.
      * apply IH; [exact Hnodup | exact Hd' |].
        intro Hin. apply Hfresh. right. exact Hin.
  - apply Forall_app. split; [exact Hd |].
    constructor; [| constructor].
    apply validate_doc_ok in V. exact V.
Qed.

Lemma save_each_keeps_ok (online : bool) (l : list Body.t) :
  forall (seed : N) (c : Collection),
    collection_ok c -> collection_ok (snd (User.save_each online seed l c)).
Proof.
  induction l as [| b l IH]; intros seed c H.
  - exact H.
  - change (User.save_each online seed (b :: l))
      with (bind (attempt (User.save online true (User.new seed b)))
              (fun r => bind (User.save_each online (N.succ seed) l)
                          (fun rs => ret (r :: rs)))).
    unfold bind at 1, attempt.
    pose proof (save_new_keeps_ok online (User.new seed b) c H) as H1.
    destruct (User.save online true (User.new seed b) c) as [r c1]. simpl in H1.
    unfold bind.
    pose proof (IH (N.succ seed) c1 H1) as H2.
    destruct (User.save_each online (N.succ seed) l c1) as [[rs | e] c2];
      exact H2.
Qed.

Lemma find_one_and_update_keeps_ok (online : bool) (f : Filter) (u : Body.t)
    (rv : bool) (c : Collection) :
  (if rv then validate_update u else []) = [] -> validate_update u = [] ->
  collection_ok c ->
  collection_ok (snd (User.findOneAndUpdate online f u rv c)).
Proof.
  intros E V H. unfold User.findOneAndUpdate. rewrite E.
  run_handler. destruct online; simpl; [| exact H].
  destruct (find (matches f) c) as [hit |]; simpl; [| exact H].
  apply replace_first_ok; [reflexivity | | exact H].
  intros d Hd _. apply apply_update_ok; assumption.
Qed.

Lemma find_by_id_and_delete_keeps_ok (online : bool) (id : string) (c : Collection) :
  collection_ok c -> collection_ok (snd (User.findByIdAndDelete online id c)).
Proof.
  intro H. run_handler. destruct (castObjectId id) as [o |]; [| exact H].
  destruct online; simpl; [| exact H].
  destruct (find (matches (FId o)) c); simpl; [| exact H].
  apply remove_first_ok. exact H.
Qed.

Lemma try_catch_snd (m : Async Response) (h : Err.t -> Response) (c : Collection) :
  snd (try_catch m h c) = snd (m c).
Proof.
  unfold try_catch. destruct (m c) as [[r | e] c']; reflexivity.
Qed.

Lemma bind_ret_snd {A B} (m : Async A) (k : A -> B) (c : Collection) :
  snd (bind m (fun a => ret (k a)) c) = snd (m c).
Proof.
  unfold bind, ret. destruct (m c) as [[a | e] c']; reflexivity.
Qed.

(** Every route keeps the invariant: identifiers stay unique and every stored
    record keeps meeting the schema. *)
Theorem router_keeps_collection_ok (online : bool) (seed : N) (req : Request)
    (c : Collection) :
  collection_ok c -> collection_ok (snd (router online seed req c)).
Proof.
  intro H.
  destruct req as [| b | id b | id | b | rb | nm | food | id | id | nm | id | nm |];
    simpl router.
  - rewrite get_all_reads. exact H.
  - unfold post_user. rewrite try_catch_snd, bind_ret_snd.
    apply save_new_keeps_ok. exact H.
  - unfold put_by_id. rewrite try_catch_snd.
    unfold bind, User.findByIdAndUpdate.
    destruct (castObjectId id) as [o |]; [| exact H].
    destruct (validate_update b) as [| q qs] eqn:V.
    + pose proof (find_one_and_update_keeps_ok online (FId o) b true c) as K.
      rewrite V in K. specialize (K eq_refl eq_refl H).
      destruct (User.findOneAndUpdate online (FId o) b true c) as [[[u |] | e] c'];
        exact K.
    + unfold User.findOneAndUpdate. rewrite V. exact H.
  - unfold delete_by_id. rewrite try_catch_snd. unfold bind.
    pose proof (find_by_id_and_delete_keeps_ok online id c H) as K.
    destruct (User.findByIdAndDelete online id c) as [[[d |] | e] c']; exact K.
  - unfold post_create_one. rewrite try_catch_snd, bind_ret_snd.
    apply save_new_keeps_ok. exact H.
  - unfold post_create_many. rewrite try_catch_snd.
    destruct rb as [o | [| b l]]; [exact H | exact H |].
    unfold User.create, bind.
    pose proof (save_each_keeps_ok online (b :: l) seed c H) as K.
    destruct (User.save_each online seed (b :: l) c) as [[rs | e] c']; [| exact K].
    destruct (first_error rs); exact K.
  - rewrite get_find_by_name_reads. exact H.
  - rewrite get_find_one_food_reads. exact H.
  - rewrite get_find_by_id_reads. exact H.
  - destruct (castObjectId id) as [o |] eqn:Hc;
      [| run_handler; rewrite Hc; exact H].
    destruct online; [| run_handler; rewrite Hc; exact H].
    destruct (find (matches (FId o)) c) as [p |] eqn:F;
      [| run_handler; rewrite Hc; simpl; rewrite F; exact H].
    rewrite (classic_update_on_found id o p c Hc F).
    destruct (validate (hamburger_added p)) as [| q qs] eqn:V; [| exact H].
    cbn [snd]. apply replace_first_ok; [| | exact H].
    + intros d Hd. simpl in Hd. apply String.eqb_eq in Hd.
      rewrite Hd, id_hamburger_added. exact (find_matches_id o c p F).
    + intros d _ _. apply validate_doc_ok. exact V.
  - unfold put_find_one_and_update. rewrite try_catch_snd. unfold bind.
    pose proof (find_one_and_update_keeps_ok online (FName nm)
                  (Body.mk None (Some 20%Z) None) false c eq_refl eq_refl H) as K.
    destruct (User.findOneAndUpdate online (FName nm)
                (Body.mk None (Some 20%Z) None) false c) as [[[u |] | e] c'];
      exact K.
  - unfold delete_find_by_id_and_remove, User.findByIdAndRemove.
    rewrite try_catch_snd. unfold bind.
    pose proof (find_by_id_and_delete_keeps_ok online id c H) as K.
    destruct (User.findByIdAndDelete online id c) as [[[d |] | e] c']; exact K.
  - run_handler. destruct online; simpl; [| exact H].
    destruct (Nat.eqb _ 0); simpl; apply filter_ok; exact H.
  - rewrite get_search_burritos_reads. exact H.
Qed.

Lemma empty_collection_ok : collection_ok [].
Proof. split; constructor. Qed.

(** Whatever requests were served since the collection was empty, its
    identifiers are unique and its records meet the schema. *)
Theorem served_collection_ok (reqs : list (bool * N * Request)) :
  collection_ok (serve reqs []).
Proof.
  generalize empty_collection_ok. generalize (@nil Doc).
  induction reqs as [| [[online seed] req] reqs IH]; intros c H; simpl.
  - exact H.
  - apply IH. apply router_keeps_collection_ok. exact H.
Qed.

(** * Further properties of the routes *)

(** ** First match of a condition *)

Lemma find_none_iff (p : Doc -> bool) (l : list Doc) :
  find p l = None <-> (forall e, In e l -> p e = false).
Proof.
  split.
  - apply find_none.
  - induction l as [| e l IH]; simpl; intro H.
    + reflexivity.
    + rewrite (H e (or_introl eq_refl)). apply IH.
      intros x Hx. apply H. right. exact Hx.
Qed.

Lemma likes_iff (food : string) (d : Doc) :
  matches (FFood food) d = true <-> In food (favoriteFoods d).
Proof. apply includes_In. Qed.

(** ** The create routes *)

Lemma existsb_id_iff (o : ObjectId) (c : Collection) :
  existsb (matches (FId o)) c = false <-> ~ In o (map _id c).
Proof.
  split; [| apply existsb_id_false].
  intros H Hin. apply in_map_iff in Hin. destruct Hin as (e & E & Hin).
  assert (T : existsb (matches (FId o)) c = true).
  { apply existsb_exists. exists e. split; [exact Hin |].
    simpl. rewrite E. apply String.eqb_refl. }
  rewrite T in H. discriminate H.
Qed.

(** X1. [POST /users/] answers 201 exactly when the connection is up, the body
    meets the schema and the generated identifier is not yet in use; what the
    collection already holds (for instance records of the same name) plays no
    other part.  On 201 the collection grows by the created record, at its
    end. *)
Theorem post_user_created_iff (online : bool) (seed : N) (b : Body.t)
    (c : Collection) :
  (status (fst (post_user online seed b c)) = 201
   <-> online = true /\ body_ok b /\ ~ In (mkObjectId seed) (map _id c))
  /\ (status (fst (post_user online seed b c)) = 201 ->
      snd (post_user online seed b c) = (c ++ [set_v 0 (User.new seed b)])%list).
Proof.
  split; [split |].
  - intro Hs.
    destruct (post_user_created online seed b c _ _ (surjective_pairing _) Hs)
      as (_ & _ & V & X).
    assert (O : online = true).
    { revert Hs. run_handler. rewrite V. destruct online; [reflexivity |].
      simpl. discriminate. }
    split; [exact O |]. split.
    + apply validate_doc_ok in V. exact V.
    + apply existsb_id_iff. exact X.
  - intros (-> & Hb & Hfresh).
    unfold post_user, try_catch, bind.
    rewrite (save_new_ok seed b c Hb Hfresh). reflexivity.
  - intro Hs.
    destruct (post_user_created online seed b c _ _ (surjective_pairing _) Hs)
      as (_ & E & _).
    exact E.
Qed.

(** [POST /users/create-one] is the same handler as [POST /users/]: same
    response and same collection for every input. *)
Lemma create_one_same_as_post_user (online : bool) (seed : N) (b : Body.t)
    (c : Collection) :
  post_create_one online seed b c = post_user online seed b c.
Proof. reflexivity. Qed.

(** X2. The three create routes answer 201 or 400 and nothing else: whatever goes
    wrong, a storage failure included, is reported as a client error. *)
Theorem create_routes_answer_201_or_400 (online : bool) (seed : N) (b : Body.t)
    (rb : ReqBody) (c : Collection) :
  In (status (fst (post_user online seed b c))) [201; 400]
  /\ In (status (fst (post_create_one online seed b c))) [201; 400]
  /\ In (status (fst (post_create_many online seed rb c))) [201; 400].
Proof.
  assert (P : In (status (fst (post_user online seed b c))) [201; 400]).
  { unfold post_user, try_catch, bind.
    destruct (User.save online true (User.new seed b) c) as [[d | e] c'];
      simpl; auto. }
  split; [exact P |]. split; [exact P |].
  unfold post_create_many, try_catch.
  destruct rb as [o | [| x l]]; simpl; auto.
  unfold User.create, bind.
  destruct (save_each_resolves online (x :: l) seed c) as (rs & c' & E).
  rewrite E. destruct (first_error rs); simpl; auto.
Qed.

(** X3. A body without a name, with an empty name or with a negative age is
    refused by [POST /users/] and [POST /users/create-one] with 400; the body
    of the answer carries the validation message, and nothing is inserted,
    with the connection up or down. *)
Theorem create_refuses_bad_body (online : bool) (seed : N) (b : Body.t)
    (c : Collection) :
  Body.name b = None \/ Body.name b = Some ""
  \/ (exists a, Body.age b = Some a /\ (a < 0)%Z) ->
  exists problems,
    problems <> []
    /\ post_user online seed b c
       = (res 400 (message ("User validation failed: "
                              ++ String.concat ", " problems)), c)
    /\ post_create_one online seed b c
       = (res 400 (message ("User validation failed: "
                              ++ String.concat ", " problems)), c).
Proof.
  intro H.
  assert (V : validate (User.new seed b) <> []).
  { intro V. apply validate_doc_ok in V. destruct V as [(n & Hn & Hne) Ha].
    simpl in Hn. destruct H as [H | [H | (a & H & L)]].
    - rewrite H in Hn. discriminate Hn.
    - rewrite H in Hn. injection Hn as <-. apply Hne. reflexivity.
    - specialize (Ha a H). lia. }
  exists (validate (User.new seed b)). split; [exact V |].
  apply (create_validation_failure_is_400 online seed b c V).
Qed.

Lemma create_refuses_bad_body_witness :
  status (fst (post_user true 5 (Body.mk (Some "") (Some 3%Z) None) [zeta])) = 400
  /\ snd (post_user true 5 (Body.mk (Some "") (Some 3%Z) None) [zeta]) = [zeta].
Proof.
  destruct (create_refuses_bad_body true 5 (Body.mk (Some "") (Some 3%Z) None) [zeta]
              (or_intror (or_introl eq_refl))) as (problems & _ & H & _).
  rewrite H. split; reflexivity.
Defined.

(** ** Update by identifier *)

Lemma update_ok_validate (u : Body.t) : update_ok u -> validate_update u = [].
Proof.
  intros [Hn Ha]. unfold validate_update.
  destruct (Body.name u) as [n |]; simpl.
  - specialize (Hn n eq_refl).
    destruct (String.eqb_spec n "") as [E | _]; [contradiction |].
    simpl. destruct (Body.age u) as [a |]; simpl; [| reflexivity].
    specialize (Ha a eq_refl).
    destruct (Z.ltb_spec a 0) as [L | _]; [lia | reflexivity].
  - destruct (Body.age u) as [a |]; simpl; [| reflexivity].
    specialize (Ha a eq_refl).
    destruct (Z.ltb_spec a 0) as [L | _]; [lia | reflexivity].
Qed.

Lemma replace_first_id_fun (p : Doc -> bool) (f : Doc -> Doc) (l : list Doc) :
  (forall d, f d = d) -> replace_first p f l = l.
Proof.
  intro Hf. induction l as [| e l IH]; simpl.
  - reflexivity.
  - destruct (p e); [rewrite Hf | rewrite IH]; reflexivity.
Qed.

Lemma put_by_id_found (id : string) (o : ObjectId) (u : Body.t) (d : Doc)
    (c : Collection) :
  castObjectId id = Some o -> validate_update u = [] ->
  find (matches (FId o)) c = Some d ->
  put_by_id true id u c
  = (res 200 (JDocument (apply_update u d)),
     replace_first (matches (FId o)) (apply_update u) c).
Proof.
  intros Hc V F. run_handler. rewrite Hc, V. simpl. rewrite F. reflexivity.
Qed.

(** X4. [PUT /users/:id], connection up, identifier well formed, update accepted
    by the validators.  If a record [d] has the identifier, the answer is 200
    with [d] in which exactly the paths the body carries are replaced (the
    identifier and the other paths stay); that record takes the place of [d]
    in the collection, every other record stays where it was, and a
    [GET /users/find-by-id/:id] that follows returns it.  If no record has the
    identifier the answer is 404 and nothing is created. *)
Theorem put_by_id_replaces_given_paths (id : string) (o : ObjectId) (u : Body.t)
    (c : Collection) :
  castObjectId id = Some o -> update_ok u ->
  (forall d, find (matches (FId o)) c = Some d ->
     exists d' l1 l2,
       fst (put_by_id true id u c) = res 200 (JDocument d')
       /\ c = (l1 ++ d :: l2)%list
       /\ snd (put_by_id true id u c) = (l1 ++ d' :: l2)%list
       /\ _id d' = _id d /\ __v d' = __v d
       /\ name d' = match Body.name u with Some n => Some n | None => name d end
       /\ age d' = match Body.age u with Some a => Some a | None => age d end
       /\ favoriteFoods d'
          = match Body.favoriteFoods u with Some fs => fs | None => favoriteFoods d end
       /\ get_find_by_id true id (snd (put_by_id true id u c))
          = (res 200 (JDocument d'), snd (put_by_id true id u c)))
  /\ (find (matches (FId o)) c = None ->
      put_by_id true id u c = (res 404 (message "User not found"), c)).
Proof.
  intros Hc Hu. pose proof (update_ok_validate u Hu) as V. split.
  - intros d F.
    rewrite (put_by_id_found id o u d c Hc V F).
    destruct (find_first_split _ c d F) as (l1 & l2 & E & Hd & Hl1 & Hr & _).
    exists (apply_update u d), l1, l2.
    cbn [fst snd]. rewrite Hr.
    repeat split; try reflexivity; try exact E.
    run_handler. rewrite Hc. simpl.
    rewrite find_first_of_split; [reflexivity | exact Hl1 | exact Hd].
  - intro F. run_handler. rewrite Hc, V. simpl. rewrite F. reflexivity.
Qed.

Lemma put_by_id_replaces_given_paths_witness :
  put_by_id true "000000000000000000000002"
    (Body.mk None (Some 31%Z) (Some ["Hamburger"; "Sushi"])) [zeta; alpha; carl]
  = (res 200 (JDocument (mkDoc (mkObjectId 2) (Some "Alpha") (Some 31%Z)
                           ["Hamburger"; "Sushi"] (Some 0))),
     [zeta;
      mkDoc (mkObjectId 2) (Some "Alpha") (Some 31%Z) ["Hamburger"; "Sushi"] (Some 0);
      carl])
  /\ put_by_id true "000000000000000000000009"
       (Body.mk None (Some 31%Z) None) [zeta; alpha; carl]
     = (res 404 (message "User not found"), [zeta; alpha; carl]).
Proof.
  assert (Hu : forall fs, update_ok (Body.mk None (Some 31%Z) fs)).
  { intro fs. split; simpl; intros x E; [discriminate E |].
    injection E as <-. lia. }
  split.
  - destruct (put_by_id_replaces_given_paths "000000000000000000000002"
                (mkObjectId 2) (Body.mk None (Some 31%Z) (Some ["Hamburger"; "Sushi"]))
                [zeta; alpha; carl] eq_refl (Hu _)) as [H _].
    destruct (H alpha eq_refl) as (d' & l1 & l2 & H1 & _).
    reflexivity.
  - destruct (put_by_id_replaces_given_paths "000000000000000000000009"
                (mkObjectId 9) (Body.mk None (Some 31%Z) None)
                [zeta; alpha; carl] eq_refl (Hu _)) as [_ H].
    apply H. reflexivity.
Defined.

(** X5. [PUT /users/:id] with a body that carries none of the schema's paths
    (for instance [{}]) changes nothing: it answers 200 with the stored
    record, or 404 when there is none, and the collection is as before. *)
Theorem put_by_id_empty_body_changes_nothing (id : string) (o : ObjectId)
    (c : Collection) :
  castObjectId id = Some o ->
  snd (put_by_id true id (Body.mk None None None) c) = c
  /\ fst (put_by_id true id (Body.mk None None None) c)
     = match find (matches (FId o)) c with
       | Some d => res 200 (JDocument d)
       | None => res 404 (message "User not found")
       end.
Proof.
  intro Hc.
  assert (I : forall d, apply_update (Body.mk None None None) d = d)
    by (intros []; reflexivity).
  run_handler. rewrite Hc. simpl.
  destruct (find (matches (FId o)) c) as [d |]; simpl.
  - rewrite (replace_first_id_fun _ _ c I), I. split; reflexivity.
  - split; reflexivity.
Qed.

Lemma put_by_id_empty_body_changes_nothing_witness :
  snd (put_by_id true "000000000000000000000001" (Body.mk None None None)
         [zeta; alpha]) = [zeta; alpha]
  /\ fst (put_by_id true "000000000000000000000001" (Body.mk None None None)
            [zeta; alpha]) = res 200 (JDocument zeta).
Proof.
  exact (put_by_id_empty_body_changes_nothing "000000000000000000000001"
           (mkObjectId 1) [zeta; alpha] eq_refl).
Defined.

(** ** Find one and update; find one by food; the listings *)

Lemma has_name_false_iff (nm : string) (d : Doc) :
  has_name nm d = false <-> name d <> Some nm.
Proof.
  rewrite <- has_name_iff. destruct (has_name nm d); split; congruence.
Qed.

Lemma find_one_and_update_found (nm : string) (d : Doc) (c : Collection) :
  find (has_name nm) c = Some d ->
  put_find_one_and_update true nm c
  = (res 200 (JDocument (with_age 20 d)), replace_first (has_name nm) (with_age 20) c).
Proof.
  intro F. run_handler. simpl.
  change (matches (FName nm)) with (has_name nm). rewrite F. reflexivity.
Qed.

Lemma find_one_and_update_missing (nm : string) (c : Collection) :
  find (has_name nm) c = None ->
  put_find_one_and_update true nm c
  = (res 404 (message ("No person found with name: " ++ nm)), c).
Proof.
  intro F. run_handler. simpl.
  change (matches (FName nm)) with (has_name nm). rewrite F. reflexivity.
Qed.

(** X6. [PUT /users/find-one-and-update/:name], connection up.  Of the records
    named [:name] only the first in storage order is touched: its age becomes
    20 whatever it was, its other paths stay, and it is the body of the 200
    answer; records before and after it, also those of the same name, are
    left as they are.  With no record of that name the answer is 404 and
    nothing changes. *)
Theorem find_one_and_update_sets_age_of_first (nm : string) (c : Collection) :
  (forall l1 d l2,
      c = (l1 ++ d :: l2)%list -> name d = Some nm ->
      (forall e, In e l1 -> name e <> Some nm) ->
      put_find_one_and_update true nm c
      = (res 200 (JDocument (with_age 20 d)), (l1 ++ with_age 20 d :: l2)%list))
  /\ ((forall e, In e c -> name e <> Some nm) ->
      put_find_one_and_update true nm c
      = (res 404 (message ("No person found with name: " ++ nm)), c)).
Proof.
  split.
  - intros l1 d l2 -> Hd Hl1.
    assert (F : find (has_name nm) (l1 ++ d :: l2) = Some d).
    { apply find_first_of_split.
      - intros e He. apply has_name_false_iff. apply Hl1. exact He.
      - apply has_name_iff. exact Hd. }
    rewrite (find_one_and_update_found nm d _ F).
    destruct (find_first_split _ _ d F) as (k1 & k2 & E & _ & Hk1 & Hr & _).
    assert (S : l1 = k1 /\ l2 = k2).
    { clear Hr F. revert k1 E Hk1.
      induction l1 as [| e l1 IH]; intros [| x k1] E Hk1; simpl in E.
      - injection E as ->. split; reflexivity.
      - injection E as <- _. exfalso.
        specialize (Hk1 d (or_introl eq_refl)).
        apply has_name_false_iff in Hk1. contradiction.
      - injection E as -> _. exfalso.
        apply (Hl1 d (or_introl eq_refl)). exact Hd.
      - injection E as <- E.
        destruct (IH (fun y Hy => Hl1 y (or_intror Hy)) k1 E
                    (fun y Hy => Hk1 y (or_intror Hy))) as [-> ->].
        split; reflexivity. }
    destruct S as [<- <-]. rewrite Hr. reflexivity.
  - intro H. apply find_one_and_update_missing.
    apply find_none_iff. intros e He. apply has_name_false_iff. apply H. exact He.
Qed.

Lemma find_one_and_update_sets_age_of_first_witness :
  put_find_one_and_update true "Mary" [zeta; mary 0; mary 1]
  = (res 200 (JDocument (with_age 20 (mary 0))), [zeta; with_age 20 (mary 0); mary 1])
  /\ put_find_one_and_update true "Frank" [zeta; mary 0]
     = (res 404 (message "No person found with name: Frank"), [zeta; mary 0]).
Proof.
  destruct (find_one_and_update_sets_age_of_first "Mary" [zeta; mary 0; mary 1])
    as [H _].
  destruct (find_one_and_update_sets_age_of_first "Frank" [zeta; mary 0])
    as [_ H0].
  split.
  - apply (H [zeta] (mary 0) [mary 1]); try reflexivity.
    intros e [<- | []]. discriminate.
  - apply H0. intros e [<- | [<- | []]]; discriminate.
Defined.

(** X7. [PUT /users/find-one-and-update/:name] is idempotent: served a second
    time right after the first, it gives the same answer and leaves the
    collection as the first did. *)
Theorem find_one_and_update_idempotent (nm : string) (c : Collection) :
  put_find_one_and_update true nm (snd (put_find_one_and_update true nm c))
  = put_find_one_and_update true nm c.
Proof.
  destruct (find (has_name nm) c) as [d |] eqn:F.
  - rewrite (find_one_and_update_found nm d c F). cbn [snd].
    destruct (find_first_split _ c d F) as (l1 & l2 & -> & Hd & Hl1 & Hr & _).
    rewrite Hr.
    assert (F' : find (has_name nm) (l1 ++ with_age 20 d :: l2) = Some (with_age 20 d)).
    { apply find_first_of_split; [exact Hl1 | exact Hd]. }
    rewrite (find_one_and_update_found nm _ _ F').
    destruct (find_first_split _ _ _ F') as (k1 & k2 & E & _ & Hk1 & Hr' & _).
    rewrite Hr'. change (with_age 20 (with_age 20 d)) with (with_age 20 d).
    rewrite <- E. reflexivity.
  - rewrite (find_one_and_update_missing nm c F). cbn [snd].
    apply find_one_and_update_missing. exact F.
Qed.

(** X8. [GET /users/find-one-food/:food], connection up: the record returned is
    the first in storage order whose favoriteFoods hold [:food] (compared as a
    whole string, case included); the answer is 404 exactly when no stored
    record holds it. *)
Theorem find_one_food_returns_first (food : string) (c : Collection) :
  (forall l1 d l2,
      c = (l1 ++ d :: l2)%list -> In food (favoriteFoods d) ->
      (forall e, In e l1 -> ~ In food (favoriteFoods e)) ->
      get_find_one_food true food c = (res 200 (JDocument d), c))
  /\ (status (fst (get_find_one_food true food c)) = 404
      <-> forall e, In e c -> ~ In food (favoriteFoods e)).
Proof.
  split.
  - intros l1 d l2 -> Hd Hl1. run_handler. simpl.
    rewrite find_first_of_split; [reflexivity | |].
    + intros e He. specialize (Hl1 e He).
      destruct (matches (FFood food) e) eqn:M; [| reflexivity].
      apply likes_iff in M. contradiction.
    + apply likes_iff. exact Hd.
  - run_handler. simpl.
    destruct (find (matches (FFood food)) c) as [d |] eqn:F; simpl.
    + split; [discriminate |]. intro H.
      apply find_some in F. destruct F as [Hin M].
      apply likes_iff in M. exfalso. apply (H d Hin M).
    + split; [| reflexivity]. intros _ e He M.
      apply likes_iff in M.
      rewrite (find_none _ _ F e He) in M. discriminate M.
Qed.

Lemma find_one_food_returns_first_witness :
  get_find_one_food true "burritos" [carl; alpha; zeta]
  = (res 200 (JDocument alpha), [carl; alpha; zeta]).
Proof.
  destruct (find_one_food_returns_first "burritos" [carl; alpha; zeta]) as [H _].
  apply (H [carl] alpha [zeta]).
  - reflexivity.
  - simpl. auto.
  - intros e [<- | []]. simpl. intros [E | []]. discriminate E.
Defined.

Lemma filter_all (l : list Doc) : filter (matches FAll) l = l.
Proof.
  induction l as [| e l IH]; simpl; [| rewrite IH]; reflexivity.
Qed.

(** X9. The two listings, connection up.  [GET /users/] answers 200 with every
    stored record, in storage order.  [GET /users/find-by-name/:name] answers
    200 (also when nothing matches) with the stored records whose name is
    exactly [:name], each as stored and in storage order; a record without a
    name is never among them. *)
Theorem listings_return_stored_records (nm : string) (c : Collection) :
  get_all true c = (res 200 (JArray c), c)
  /\ exists l,
       get_find_by_name true nm c = (res 200 (JArray l), c)
       /\ (forall d, In d l <-> In d c /\ name d = Some nm)
       /\ l = filter (has_name nm) c.
Proof.
  split.
  - run_handler. simpl. unfold run_query. simpl. rewrite filter_all. reflexivity.
  - exists (filter (has_name nm) c). split; [reflexivity |]. split.
    + intro d. rewrite filter_In, has_name_iff. reflexivity.
    + reflexivity.
Qed.

(** ** Delete by identifier *)

Lemma delete_find_by_id_and_remove_ok (online : bool) (id : string) (c : Collection) :
  status (fst (delete_find_by_id_and_remove online id c)) = 200 ->
  exists o d,
    castObjectId id = Some o /\ online = true
    /\ find (matches (FId o)) c = Some d
    /\ snd (delete_find_by_id_and_remove online id c)
       = remove_first (matches (FId o)) c.
Proof.
  run_handler. intro Hs.
  destruct (castObjectId id) as [o |]; [| discriminate Hs].
  destruct online; simpl in *; [| discriminate Hs].
  destruct (find (matches (FId o)) c) as [d |] eqn:F; [| discriminate Hs].
  exists o, d. repeat split; try reflexivity. exact F.
Qed.

Lemma id_differs (o : ObjectId) (e : Doc) :
  matches (FId o) e = false -> _id e <> o.
Proof.
  simpl. intros H E. rewrite E, String.eqb_refl in H. discriminate H.
Qed.

(** X10. When [DELETE /users/:id] or [DELETE /users/find-by-id-and-remove/:id]
    answers 200, exactly one record has left the collection: the first one
    carrying the identifier.  Every other record is still there, in the same
    order, and the collection is one record shorter. *)
Theorem delete_by_id_removes_exactly_one (online : bool) (id : string)
    (c : Collection) :
  (status (fst (delete_by_id online id c)) = 200 ->
   exists o d l1 l2,
     castObjectId id = Some o /\ _id d = o
     /\ c = (l1 ++ d :: l2)%list
     /\ (forall e, In e l1 -> _id e <> o)
     /\ snd (delete_by_id online id c) = (l1 ++ l2)%list
     /\ S (List.length (snd (delete_by_id online id c))) = List.length c)
  /\ (status (fst (delete_find_by_id_and_remove online id c)) = 200 ->
      exists o d l1 l2,
        castObjectId id = Some o /\ _id d = o
        /\ c = (l1 ++ d :: l2)%list
        /\ (forall e, In e l1 -> _id e <> o)
        /\ snd (delete_find_by_id_and_remove online id c) = (l1 ++ l2)%list
        /\ S (List.length (snd (delete_find_by_id_and_remove online id c)))
           = List.length c).
Proof.
  split; intro Hs.
  - destruct (delete_by_id_ok online id c _ _ (surjective_pairing _) Hs)
      as (o & d & Hc & _ & F & E & _).
    destruct (find_first_split _ c d F) as (l1 & l2 & Ec & Hd & Hl1 & _ & Hm).
    exists o, d, l1, l2. rewrite E, Hm.
    split; [exact Hc |]. split; [exact (find_matches_id o c d F) |].
    split; [exact Ec |]. split.
    + intros e He. apply id_differs. apply Hl1. exact He.
    + split; [reflexivity |]. rewrite Ec, !length_app. simpl. lia.
  - destruct (delete_find_by_id_and_remove_ok online id c Hs)
      as (o & d & Hc & _ & F & E).
    destruct (find_first_split _ c d F) as (l1 & l2 & Ec & Hd & Hl1 & _ & Hm).
    exists o, d, l1, l2. rewrite E, Hm.
    split; [exact Hc |]. split; [exact (find_matches_id o c d F) |].
    split; [exact Ec |]. split.
    + intros e He. apply id_differs. apply Hl1. exact He.
    + split; [reflexivity |]. rewrite Ec, !length_app. simpl. lia.
Qed.

Lemma delete_by_id_removes_exactly_one_witness :
  snd (delete_by_id true "000000000000000000000002" [zeta; alpha; carl]) = [zeta; carl].
Proof.
  destruct (delete_by_id_removes_exactly_one true "000000000000000000000002"
              [zeta; alpha; carl]) as [H _].
  destruct (H eq_refl) as (o & d & l1 & l2 & _ & _ & _ & _ & E & _).
  reflexivity.
Defined.

Lemma remove_first_app_last (p : Doc -> bool) (l : list Doc) (d : Doc) :
  existsb p l = false -> p d = true -> remove_first p (l ++ [d]) = l.
Proof.
  induction l as [| e l IH]; simpl; intros Hl Hd.
  - rewrite Hd. reflexivity.
  - apply orb_false_iff in Hl. destruct Hl as [He Hl].
    rewrite He, IH by assumption. reflexivity.
Qed.

(** X11. Creating a record with [POST /users/] and then deleting it with
    [DELETE /users/:id], by the identifier it was given, brings the collection
    back to what it was before the two requests; the delete answers 200 with
    the created record under [deletedUser]. *)
Theorem create_then_delete_restores (online : bool) (seed : N) (b : Body.t)
    (c : Collection) :
  status (fst (post_user online seed b c)) = 201 ->
  delete_by_id true (toHexString (mkObjectId seed)) (snd (post_user online seed b c))
  = (res 200 (JObject [("message", JString "User deleted successfully");
                       ("deletedUser", JDocument (set_v 0 (User.new seed b)))]),
     c).
Proof.
  intro Hs.
  destruct (post_user_created online seed b c _ _ (surjective_pairing _) Hs)
    as (_ & E & _ & X).
  rewrite E.
  rewrite (delete_by_id_present _ (mkObjectId seed) (set_v 0 (User.new seed b))).
  - rewrite remove_first_app_last; [reflexivity | exact X |].
    change (String.eqb (mkObjectId seed) (mkObjectId seed) = true).
    apply String.eqb_refl.
  - apply castObjectId_mkObjectId.
  - apply find_app_last; [exact X |].
    change (String.eqb (mkObjectId seed) (mkObjectId seed) = true).
    apply String.eqb_refl.
Qed.

Lemma create_then_delete_restores_witness :
  snd (delete_by_id true (toHexString (mkObjectId 9))
         (snd (post_user true 9 (Body.mk (Some "Bob") None None) [zeta; alpha])))
  = [zeta; alpha].
Proof.
  rewrite (create_then_delete_restores true 9 (Body.mk (Some "Bob") None None)
             [zeta; alpha] eq_refl).
  reflexivity.
Defined.

(** ** Classic update, served twice *)

Lemma hamburger_added_twice (p : Doc) :
  hamburger_added (hamburger_added p) = hamburger_added p.
Proof.
  unfold hamburger_added.
  destruct (includes (favoriteFoods p) "hamburger") eqn:I; cbn [negb].
  - rewrite I. reflexivity.
  - cbn [favoriteFoods set_favoriteFoods bump_v].
    assert (I' : includes (push (favoriteFoods p) "hamburger") "hamburger" = true).
    { apply includes_In. unfold push. apply in_or_app. right. left. reflexivity. }
    rewrite I'. reflexivity.
Qed.

(** X12. [PUT /users/classic-update/:id] is idempotent, whatever the identifier,
    the connection and the collection: served again right after itself it
    gives the same answer and leaves the collection as the first request
    did, so "hamburger" is never appended a second time. *)
Theorem classic_update_idempotent (online : bool) (id : string) (c : Collection) :
  put_classic_update online id (snd (put_classic_update online id c))
  = put_classic_update online id c.
Proof.
  destruct (castObjectId id) as [o |] eqn:Hc.
  2: { assert (E : snd (put_classic_update online id c) = c)
         by (run_handler; rewrite Hc; reflexivity).
       rewrite E. reflexivity. }
  destruct online.
  2: { assert (E : snd (put_classic_update false id c) = c)
         by (run_handler; rewrite Hc; reflexivity).
       rewrite E. reflexivity. }
  destruct (find (matches (FId o)) c) as [p |] eqn:F.
  2: { assert (E : snd (put_classic_update true id c) = c)
         by (run_handler; rewrite Hc; simpl; rewrite F; reflexivity).
       rewrite E. reflexivity. }
  rewrite (classic_update_on_found id o p c Hc F).
  destruct (validate (hamburger_added p)) as [| q qs] eqn:V; cbn [snd].
  - assert (F' : find (matches (FId o))
                   (replace_first (matches (FId o)) (fun _ => hamburger_added p) c)
                 = Some (hamburger_added p)).
    { apply find_replace_first with (d := p); [exact F |].
      pose proof (find_matches_id o c p F) as Hid.
      unfold hamburger_added. destruct (negb _); simpl; rewrite Hid;
        apply String.eqb_refl. }
    rewrite (classic_update_on_found id o _ _ Hc F').
    rewrite hamburger_added_twice, V.
    rewrite (replace_first_same _ _ _ F'). reflexivity.
  - rewrite (classic_update_on_found id o p c Hc F), V. reflexivity.
Qed.

(** ** The chained search, for every collection *)

Lemma string_leb_trans (a b c : string) :
  String.leb a b = true -> String.leb b c = true -> String.leb a c = true.
Proof.
  unfold String.leb.
  destruct (String.compare a b) eqn:Eab; try discriminate; intros _;
    destruct (String.compare b c) eqn:Ebc; try discriminate; intros _.
  - apply String.compare_eq_iff in Eab, Ebc. subst.
    assert (E : String.compare c c = Eq)
      by (apply OrderedTypeEx.String_as_OT.cmp_eq; reflexivity).
    rewrite E. reflexivity.
  - apply String.compare_eq_iff in Eab. subst. rewrite Ebc. reflexivity.
  - apply String.compare_eq_iff in Ebc. subst. rewrite Eab. reflexivity.
  - apply OrderedTypeEx.String_as_OT.cmp_lt in Eab, Ebc.
    pose proof (OrderedTypeEx.String_as_OT.lt_trans _ _ _ Eab Ebc) as L.
    apply OrderedTypeEx.String_as_OT.cmp_lt in L.
    unfold OrderedTypeEx.String_as_OT.cmp in L. rewrite L. reflexivity.
Qed.

Lemma by_name_total (a b : Doc) : name_leb (name a) (name b) = false -> by_name b a.
Proof.
  unfold by_name, name_leb.
  destruct (name a) as [x |], (name b) as [y |]; try discriminate; try reflexivity.
  intro H. destruct (String.leb_total x y) as [L | L]; [congruence | exact L].
Qed.

Lemma by_name_trans (a b c : Doc) : by_name a b -> by_name b c -> by_name a c.
Proof.
  unfold by_name, name_leb.
  destruct (name a) as [x |], (name b) as [y |], (name c) as [z |];
    try discriminate; try reflexivity.
  apply string_leb_trans.
Qed.

Lemma insert_by_name_perm (d : Doc) (l : list Doc) :
  Permutation (insert_by_name d l) (d :: l).
Proof.
  induction l as [| e l IH]; simpl.
  - apply Permutation_refl.
  - destruct (name_leb (name d) (name e)).
    + apply Permutation_refl.
    + apply perm_trans with (e :: d :: l).
      * apply perm_skip. exact IH.
      * apply perm_swap.
Qed.

Lemma sort_by_name_perm (l : list Doc) : Permutation (sort_by_name l) l.
Proof.
  induction l as [| e l IH]; simpl.
  - apply perm_nil.
  - apply perm_trans with (e :: sort_by_name l).
    + apply insert_by_name_perm.
    + apply perm_skip. exact IH.
Qed.

Lemma insert_by_name_sorted (d : Doc) (l : list Doc) :
  StronglySorted by_name l -> StronglySorted by_name (insert_by_name d l).
Proof.
  induction l as [| e l IH]; simpl; intro H.
  - constructor; constructor.
  - apply StronglySorted_inv in H. destruct H as [Hl He].
    destruct (name_leb (name d) (name e)) eqn:L.
    + constructor.
      * constructor; assumption.
      * constructor; [exact L |].
        apply Forall_forall. intros x Hx.
        apply by_name_trans with e; [exact L |].
        apply (proj1 (Forall_forall _ _) He). exact Hx.
    + constructor; [apply IH; exact Hl |].
      apply Forall_forall. intros x Hx.
      apply (Permutation_in _ (insert_by_name_perm d l)) in Hx.
      destruct Hx as [<- | Hx].
      * apply by_name_total. exact L.
      * apply (proj1 (Forall_forall _ _) He). exact Hx.
Qed.

Lemma sort_by_name_sorted (l : list Doc) : StronglySorted by_name (sort_by_name l).
Proof.
  induction l as [| e l IH]; simpl.
  - constructor.
  - apply insert_by_name_sorted. exact IH.
Qed.

Lemma sorted_app_order (l1 l2 : list Doc) :
  StronglySorted by_name (l1 ++ l2) ->
  StronglySorted by_name l1
  /\ (forall a b, In a l1 -> In b l2 -> by_name a b).
Proof.
  induction l1 as [| e l1 IH]; simpl; intro H.
  - split; [constructor | intros a b []].
  - apply StronglySorted_inv in H. destruct H as [Hl He].
    destruct (IH Hl) as [IH1 IH2]. split.
    + constructor; [exact IH1 |].
      apply Forall_forall. intros x Hx.
      apply (proj1 (Forall_forall _ _) He). apply in_or_app. left. exact Hx.
    + intros a b [<- | Ha] Hb.
      * apply (proj1 (Forall_forall _ _) He). apply in_or_app. right. exact Hb.
      * apply IH2; assumption.
Qed.

(** X13. [GET /users/search-burritos], connection up, on any collection.  The
    answer is 200 with the projections (no [age], no [__v], all else kept) of
    a list [l] of stored records that hold "burritos" among their
    favoriteFoods; [l] has two records, or fewer when fewer stored records
    qualify; it is in ascending order of name (a record without a name
    first); and every qualifying record that is left out has a name not
    below those returned. *)
Theorem search_burritos_least_two_by_name (c : Collection) :
  exists l,
    get_search_burritos true c = (res 200 (JArray (map minus_age_v l)), c)
    /\ List.length l
       = Nat.min 2 (List.length (filter (matches (FFood "burritos")) c))
    /\ (forall d, In d l -> In d c /\ In "burritos" (favoriteFoods d))
    /\ StronglySorted by_name l
    /\ (forall d, In d c -> In "burritos" (favoriteFoods d) ->
        In d l \/ forall r, In r l -> by_name r d)
    /\ (forall r, In r (map minus_age_v l) -> age r = None /\ __v r = None).
Proof.
  set (hits := filter (matches (FFood "burritos")) c).
  exists (firstn 2 (sort_by_name hits)).
  pose proof (sort_by_name_sorted hits) as HS.
  pose proof (sort_by_name_perm hits) as HP.
  rewrite <- (firstn_skipn 2 (sort_by_name hits)) in HS.
  destruct (sorted_app_order _ _ HS) as [HS1 HS2].
  split; [reflexivity |]. split; [| split; [| split; [| split]]].
  - rewrite length_firstn, (Permutation_length HP). reflexivity.
  - intros d Hd.
    assert (Hin : In d hits).
    { apply (Permutation_in _ HP).
      rewrite <- (firstn_skipn 2 (sort_by_name hits)).
      apply in_or_app. left. exact Hd. }
    apply filter_In in Hin. destruct Hin as [Hin M].
    split; [exact Hin | apply likes_iff; exact M].
  - exact HS1.
  - intros d Hin Hd.
    assert (Hs : In d (sort_by_name hits)).
    { apply (Permutation_in _ (Permutation_sym HP)).
      apply filter_In. split; [exact Hin | apply likes_iff; exact Hd]. }
    rewrite <- (firstn_skipn 2 (sort_by_name hits)) in Hs.
    apply in_app_or in Hs. destruct Hs as [Hs | Hs].
    + left. exact Hs.
    + right. intros r Hr. apply HS2; assumption.
  - intros r Hr. apply in_map_iff in Hr. destruct Hr as (d & <- & _).
    split; reflexivity.
Qed.

(** ** Delete many by name: what it leaves *)

Lemma filter_negb_length (p : Doc -> bool) (l : list Doc) :
  List.length l
  = List.length (filter (fun d => negb (p d)) l) + List.length (filter p l).
Proof.
  induction l as [| e l IH]; simpl.
  - reflexivity.
  - destruct (p e); simpl; lia.
Qed.

Lemma filter_other_name (nm other : string) (l : list Doc) :
  other <> nm ->
  filter (has_name other) (filter (fun d => negb (has_name nm d)) l)
  = filter (has_name other) l.
Proof.
  intro Hne. induction l as [| e l IH]; simpl.
  - reflexivity.
  - destruct (has_name nm e) eqn:N; simpl.
    + destruct (has_name other e) eqn:O; [| exact IH].
      apply has_name_iff in N, O. rewrite N in O. injection O as ->.
      contradiction.
    + rewrite IH. reflexivity.
Qed.

Lemma filter_none_matching (p : Doc -> bool) (l : list Doc) :
  List.length (filter p l) = 0 -> filter (fun d => negb (p d)) l = l.
Proof.
  induction l as [| e l IH]; simpl.
  - reflexivity.
  - destruct (p e); simpl; [discriminate |].
    intro H. rewrite IH by exact H. reflexivity.
Qed.

Lemma delete_many_result (nm : string) (c : Collection) :
  snd (delete_many_by_name true nm c) = filter (fun d => negb (has_name nm d)) c.
Proof.
  run_handler. simpl. destruct (Nat.eqb _ 0); reflexivity.
Qed.

(** X14. [DELETE /users/delete-many-by-name/:name], connection up.  The collection
    shrinks by exactly the number of records named [:name]; the listing by
    any other name is what it was before; and a second request for the same
    name answers 404 and changes nothing more. *)
Theorem delete_many_by_name_frame (nm : string) (c : Collection) :
  let c' := snd (delete_many_by_name true nm c) in
  List.length c = List.length c' + List.length (filter (has_name nm) c)
  /\ (forall other, other <> nm ->
      fst (get_find_by_name true other c') = fst (get_find_by_name true other c))
  /\ status (fst (delete_many_by_name true nm c')) = 404
  /\ snd (delete_many_by_name true nm c') = c'.
Proof.
  intro c'. subst c'. rewrite delete_many_result.
  split; [apply filter_negb_length |]. split; [| split].
  - intros other Hne. run_handler. simpl. unfold run_query. simpl.
    change (matches (FName other)) with (has_name other).
    rewrite (filter_other_name nm other c Hne). reflexivity.
  - run_handler. simpl. unfold count_matching.
    change (matches (FName nm)) with (has_name nm).
    rewrite filter_out_then_filter. reflexivity.
  - rewrite delete_many_result.
    induction c as [| e c IH]; simpl; [reflexivity |].
    destruct (has_name nm e) eqn:N; simpl; [exact IH |].
    rewrite N. simpl. rewrite IH. reflexivity.
Qed.

(** ** Storage failure, error bodies and what a failed request leaves *)

Lemma save_offline (isNew : bool) (d : Doc) (c : Collection) :
  exists e, User.save false isNew d c = (Throw e, c).
Proof.
  unfold User.save. destruct (validate d) as [| q qs].
  - destruct isNew; eexists; reflexivity.
  - eexists. reflexivity.
Qed.

Lemma save_each_offline (l : list Body.t) : forall (seed : N) (c : Collection),
  exists rs,
    User.save_each false seed l c = (Ok rs, c)
    /\ (l <> [] -> exists e, first_error rs = Some e).
Proof.
  induction l as [| b l IH]; intros seed c.
  - exists []. split; [reflexivity | intro H; contradiction].
  - change (User.save_each false seed (b :: l))
      with (bind (attempt (User.save false true (User.new seed b)))
              (fun r => bind (User.save_each false (N.succ seed) l)
                          (fun rs => ret (r :: rs)))).
    unfold bind at 1, attempt.
    destruct (save_offline true (User.new seed b) c) as (e & E). rewrite E.
    destruct (IH (N.succ seed) c) as (rs & E2 & _).
    unfold bind. rewrite E2. exists (Throw e :: rs).
    split; [reflexivity |]. intros _. exists e. reflexivity.
Qed.

Lemma post_user_status (online : bool) (seed : N) (b : Body.t) (c : Collection) :
  status (fst (post_user online seed b c)) = 201
  \/ (status (fst (post_user online seed b c)) = 400
      /\ snd (post_user online seed b c) = c).
Proof.
  run_handler. destruct (validate (User.new seed b)); [| right; split; reflexivity].
  destruct online; simpl; [| right; split; reflexivity].
  destruct (existsb _ c); simpl; [right; split; reflexivity | left; reflexivity].
Qed.

Lemma post_create_many_status (online : bool) (seed : N) (rb : ReqBody)
    (c : Collection) :
  In (status (fst (post_create_many online seed rb c))) [201; 400].
Proof.
  unfold post_create_many, try_catch.
  destruct rb as [o | [| x l]]; simpl; auto.
  unfold User.create, bind.
  destruct (save_each_resolves online (x :: l) seed c) as (rs & c' & E).
  rewrite E. destruct (first_error rs); simpl; auto.
Qed.

Lemma post_create_many_offline (seed : N) (rb : ReqBody) (c : Collection) :
  status (fst (post_create_many false seed rb c)) = 400
  /\ snd (post_create_many false seed rb c) = c.
Proof.
  unfold post_create_many, try_catch.
  destruct rb as [o | [| x l]]; [split; reflexivity | split; reflexivity |].
  unfold User.create, bind.
  destruct (save_each_offline (x :: l) seed c) as (rs & E & F).
  destruct (F ltac:(discriminate)) as (e & Fe).
  rewrite E, Fe. split; reflexivity.
Qed.

(** Case analysis on what a handler looks at. *)
Ltac handler_cases :=
  repeat (simpl;
          match goal with
          | |- context [castObjectId ?i] => destruct (castObjectId i) eqn:?
          | |- context [match validate_update ?u with _ => _ end] =>
              destruct (validate_update u) eqn:?
          | |- context [match validate ?d with _ => _ end] =>
              destruct (validate d) eqn:?
          | |- context [match find ?p ?c with _ => _ end] =>
              destruct (find p c) eqn:?
          | |- context [if existsb ?p ?c then _ else _] =>
              destruct (existsb p c) eqn:?
          | |- context [if Nat.eqb ?a ?b then _ else _] =>
              destruct (Nat.eqb a b) eqn:?
          end).

(** X15. While the storage connection is down no route changes the collection,
    and every route answers 400 or 500: 400 from the three create routes and
    for a malformed identifier, 500 otherwise. *)
Theorem offline_nothing_is_written (seed : N) (req : Request) (c : Collection) :
  snd (router false seed req c) = c
  /\ In (status (fst (router false seed req c))) [400; 500]
  /\ (match req with
      | PostUser _ | PostCreateOne _ | PostCreateMany _ =>
          status (fst (router false seed req c)) = 400
      | PutById id _ | DeleteById id | GetFindById id | PutClassicUpdate id
      | DeleteFindByIdAndRemove id =>
          castObjectId id <> None ->
          fst (router false seed req c) = res 500 (message "Server error")
      | _ => fst (router false seed req c) = res 500 (message "Server error")
      end).
Proof.
  destruct req as [| b | id b | id | b | rb | nm | food | id | id | nm | id | nm |];
    simpl router;
    try (destruct (post_create_many_offline seed rb c) as [S E];
         rewrite S, E; simpl; auto);
    try (destruct (post_user_status false seed b c) as [S | [S E]];
         [revert S; run_handler; handler_cases; discriminate
         | change (post_create_one false seed b c) with (post_user false seed b c);
           rewrite S, E; simpl; auto]);
    run_handler; handler_cases;
    repeat split; simpl; auto; try congruence; intro; congruence.
Qed.

(** X16. A 500 answer never carries detail: whatever the route, the request and
    the collection, its body is the object [{ message: "Server error" }]. *)
Theorem server_error_body_is_generic (online : bool) (seed : N) (req : Request)
    (c : Collection) :
  status (fst (router online seed req c)) = 500 ->
  body (fst (router online seed req c)) = message "Server error".
Proof.
  destruct req as [| b | id b | id | b | rb | nm | food | id | id | nm | id | nm |];
    simpl router.
  6: { intro H. pose proof (post_create_many_status online seed rb c) as S.
       rewrite H in S. simpl in S. intuition discriminate. }
  all: run_handler; destruct online; handler_cases;
    try discriminate; reflexivity.
Qed.

Lemma server_error_body_is_generic_witness :
  body (fst (router false 0 (GetFindByName "Mary") [mary 0])) = message "Server error".
Proof.
  exact (server_error_body_is_generic false 0 (GetFindByName "Mary") [mary 0] eq_refl).
Defined.

(** X17. Except on [POST /users/create-many], a request that is answered with an
    error status (400, 404 or 500) has changed nothing in the collection. *)
Theorem failed_request_changes_nothing (online : bool) (seed : N) (req : Request)
    (c : Collection) :
  (forall rb, req <> PostCreateMany rb) ->
  400 <= status (fst (router online seed req c)) ->
  snd (router online seed req c) = c.
Proof.
  intro Hreq.
  destruct req as [| b | id b | id | b | rb | nm | food | id | id | nm | id | nm |];
    simpl router.
  6: { exfalso. apply (Hreq rb). reflexivity. }
  12: { destruct online; [| reflexivity].
        rewrite delete_many_result. run_handler. simpl. unfold count_matching.
        change (matches (FName nm)) with (has_name nm).
        destruct (Nat.eqb_spec (List.length (filter (has_name nm) c)) 0) as [E | _].
        - intros _. apply filter_none_matching. exact E.
        - simpl. lia. }
  all: run_handler; destruct online; handler_cases;
    intro H; try reflexivity; exfalso; revert H; clear; simpl; lia.
Qed.

Lemma failed_request_changes_nothing_witness :
  snd (router true 0 (PutById "000000000000000000000001"
                        (Body.mk None (Some (-1)%Z) None)) [zeta]) = [zeta].
Proof.
  apply failed_request_changes_nothing.
  - intros rb H. discriminate H.
  - simpl. lia.
Defined.

(** X22. Serving any run of requests of the form [Request] (so with every
    [PUT /users/:id] body an object of schema paths, not of update operators)
    from a collection whose identifiers are unique and whose records meet the
    schema ends in such a collection. *)
Theorem serve_keeps_collection_ok (reqs : list (bool * N * Request))
    (c : Collection) :
  collection_ok c -> collection_ok (serve reqs c).
Proof.
  revert c. induction reqs as [| [[online seed] req] reqs IH]; intros c H; simpl.
  - exact H.
  - apply IH. apply router_keeps_collection_ok. exact H.
Qed.

Lemma serve_keeps_collection_ok_witness :
  collection_ok
    (serve [(true, 7%N, PostUser (Body.mk (Some "Bob") (Some 25%Z) None));
            (true, 0%N, PutClassicUpdate "000000000000000000000001");
            (true, 0%N, DeleteManyByName "Alpha")]
       [zeta; alpha]).
Proof.
  apply serve_keeps_collection_ok. split.
  - repeat constructor; simpl; intuition discriminate.
  - repeat constructor; try (eexists; split; [reflexivity | discriminate]);
      simpl; intros a E; injection E as <-; lia.
Defined.

(** ** Lookup by identifier; what the update routes never touch *)

(** X19. [GET /users/find-by-id/:id], connection up, identifier well formed: the
    answer is 200 exactly when some stored record carries the identifier, and
    404 otherwise; a record in the body is a stored record and carries the
    identifier that was asked for (compared without regard to the case of its
    hexadecimal digits). *)
Theorem find_by_id_finds_stored_record (id : string) (o : ObjectId)
    (c : Collection) :
  castObjectId id = Some o ->
  (status (fst (get_find_by_id true id c)) = 200 <-> In o (map _id c))
  /\ (status (fst (get_find_by_id true id c)) = 404 <-> ~ In o (map _id c))
  /\ (forall d, body (fst (get_find_by_id true id c)) = JDocument d ->
      In d c /\ _id d = o).
Proof.
  intro Hc. run_handler. rewrite Hc. simpl.
  destruct (find (matches (FId o)) c) as [d |] eqn:F; simpl.
  - pose proof (find_some _ _ F) as [Hin _].
    pose proof (find_matches_id o c d F) as Hid.
    assert (I : In o (map _id c)).
    { apply in_map_iff. exists d. split; assumption. }
    split; [split; auto |]. split; [split; [discriminate | contradiction] |].
    intros d' E. injection E as <-. split; assumption.
  - assert (I : ~ In o (map _id c)).
    { apply existsb_id_iff.
      destruct (existsb (matches (FId o)) c) eqn:X; [| reflexivity].
      apply existsb_exists in X. destruct X as (e & He & M).
      rewrite (find_none _ _ F e He) in M. discriminate M. }
    split; [split; [discriminate | contradiction] |].
    split; [split; auto |]. intros d E. discriminate E.
Qed.

Lemma find_by_id_finds_stored_record_witness :
  status (fst (get_find_by_id true "00000000000000000000000A"
                 [zeta; mkDoc (mkObjectId 10) (Some "Ann") None [] (Some 0)])) = 200.
Proof.
  destruct (find_by_id_finds_stored_record "00000000000000000000000A"
              (mkObjectId 10)
              [zeta; mkDoc (mkObjectId 10) (Some "Ann") None [] (Some 0)] eq_refl)
    as [[_ H] _].
  apply H. simpl. auto.
Defined.

(** X20. The three update routes never add or remove a record and never change
    an identifier: after [PUT /users/:id], [PUT /users/classic-update/:id] or
    [PUT /users/find-one-and-update/:name], whatever the outcome, the
    collection holds the same identifiers in the same order as before. *)
Theorem update_routes_keep_identifiers (online : bool) (id nm : string)
    (u : Body.t) (c : Collection) :
  map _id (snd (put_by_id online id u c)) = map _id c
  /\ map _id (snd (put_classic_update online id c)) = map _id c
  /\ map _id (snd (put_find_one_and_update online nm c)) = map _id c.
Proof.
  split; [| split].
  - run_handler. destruct online; handler_cases; try reflexivity.
    apply replace_first_ids. reflexivity.
  - destruct (castObjectId id) as [o |] eqn:Hc;
      [| run_handler; rewrite Hc; reflexivity].
    destruct online; [| run_handler; rewrite Hc; reflexivity].
    destruct (find (matches (FId o)) c) as [p |] eqn:F;
      [| run_handler; rewrite Hc; simpl; rewrite F; reflexivity].
    rewrite (classic_update_on_found id o p c Hc F).
    destruct (validate (hamburger_added p)); [| reflexivity].
    cbn [snd]. apply replace_first_ids.
    intros d Hd. simpl in Hd. apply String.eqb_eq in Hd. rewrite Hd.
    pose proof (find_matches_id o c p F) as Hid.
    unfold hamburger_added. destruct (negb _); exact Hid.
  - run_handler. destruct online; handler_cases; try reflexivity.
    apply replace_first_ids. reflexivity.
Qed.

(** ** Create many as repeated create *)

Lemma serve_posts (l : list Body.t) : forall (seed : N) (c : Collection),
  Forall body_ok l ->
  NoDup (map _id c ++ map _id (created seed l)) ->
  serve (posts seed l) c = (c ++ created seed l)%list.
Proof.
  induction l as [| b l IH]; intros seed c Hok Hfresh.
  - simpl. rewrite app_nil_r. reflexivity.
  - inversion Hok as [| b' l' Hb Hl]; subst.
    change (created seed (b :: l))
      with (set_v 0 (User.new seed b) :: created (N.succ seed) l) in *.
    change (serve (posts seed (b :: l)) c)
      with (serve (posts (N.succ seed) l) (snd (post_user true seed b c))).
    assert (Hnew : ~ In (mkObjectId seed) (map _id c)).
    { apply NoDup_remove_2 in Hfresh. intro Hin. apply Hfresh.
      apply in_or_app. left. exact Hin. }
    assert (E : snd (post_user true seed b c)
                = (c ++ [set_v 0 (User.new seed b)])%list).
    { unfold post_user, try_catch, bind.
      rewrite (save_new_ok seed b c Hb Hnew). reflexivity. }
    rewrite E, IH.
    + rewrite <- app_assoc. reflexivity.
    + exact Hl.
    + rewrite map_app, <- app_assoc. exact Hfresh.
Qed.

(** X21. [POST /users/create-many] with a non-empty array of bodies that all meet
    the schema (connection up, generated identifiers unused) leaves the same
    collection as one [POST /users/] per element, in the order of the
    array. *)
Theorem create_many_as_repeated_create (seed : N) (l : list Body.t)
    (c : Collection) :
  l <> [] -> Forall body_ok l ->
  NoDup (map _id c ++ map _id (created seed l)) ->
  snd (post_create_many true seed (BArray l) c) = serve (posts seed l) c.
Proof.
  intros Hne Hok Hfresh. rewrite (serve_posts l seed c Hok Hfresh).
  destruct l as [| b l]; [contradiction |].
  unfold post_create_many, try_catch, User.create.
  unfold bind at 1. unfold bind at 1.
  rewrite (save_each_all_ok (b :: l) seed c Hok Hfresh).
  rewrite first_error_all_ok. reflexivity.
Qed.

Lemma create_many_as_repeated_create_witness :
  snd (post_create_many true 32
         (BArray [Body.mk (Some "Bob") (Some 25%Z) None;
                  Body.mk (Some "Frank") None None]) [zeta])
  = serve [(true, 32%N, PostUser (Body.mk (Some "Bob") (Some 25%Z) None));
           (true, 33%N, PostUser (Body.mk (Some "Frank") None None))] [zeta].
Proof.
  apply (create_many_as_repeated_create 32
           [Body.mk (Some "Bob") (Some 25%Z) None; Body.mk (Some "Frank") None None]
           [zeta]).
  - discriminate.
  - repeat constructor; try (eexists; split; [reflexivity | discriminate]);
      simpl; intros a E; try discriminate E; injection E as <-; lia.
  - repeat constructor; simpl; intuition discriminate.
Defined.

(** ** Identifiers stay unique *)

Section UniqueIds.

Variable p : Doc -> bool.

Lemma remove_first_unique (l : list Doc) :
  NoDup (map _id l) -> NoDup (map _id (remove_first p l)).
Proof.
  induction l as [| e l IH]; simpl; intro H.
  - constructor.
  - inversion H as [| x xs Hnotin Hnodup]; subst.
    destruct (p e); [exact Hnodup |].
    simpl. constructor; [| apply IH; exact Hnodup].
    intro Hin. apply Hnotin.
    apply in_map_iff in Hin. destruct Hin as (d & E & Hin).
    apply in_map_iff. exists d. split; [exact E |].
    apply remove_first_In with (p := p). exact Hin.
Qed.

Lemma filter_unique (l : list Doc) :
  NoDup (map _id l) -> NoDup (map _id (filter p l)).
Proof.
  induction l as [| e l IH]; simpl; intro H.
  - constructor.
  - inversion H as [| x xs Hnotin Hnodup]; subst.
    destruct (p e); [| apply IH; exact Hnodup].
    simpl. constructor; [| apply IH; exact Hnodup].
    intro Hin. apply Hnotin.
    apply in_map_iff in Hin. destruct Hin as (d & E & Hin).
    apply in_map_iff. exists d. split; [exact E |].
    apply filter_In in Hin. apply Hin.
Qed.

End UniqueIds.

Lemma save_new_unique (online : bool) (d : Doc) (c : Collection) :
  NoDup (map _id c) -> NoDup (map _id (snd (User.save online true d c))).
Proof.
  intro Hu. run_handler.
  destruct (validate d) as [| q qs]; [| exact Hu].
  destruct online; simpl; [| exact Hu].
  destruct (existsb (matches (FId (_id d))) c) eqn:X; simpl; [exact Hu |].
  apply existsb_id_iff in X.
  rewrite map_app. simpl.
  apply NoDup_app.
  - exact Hu.
  - constructor; [intros [] | constructor].
  - intros a Ha [<- | []]. exact (X Ha).
Qed.

Lemma save_each_unique (online : bool) (l : list Body.t) :
  forall (seed : N) (c : Collection),
    NoDup (map _id c) ->
    NoDup (map _id (snd (User.save_each online seed l c))).
Proof.
  induction l as [| b l IH]; intros seed c H.
  - exact H.
  - change (User.save_each online seed (b :: l))
      with (bind (attempt (User.save online true (User.new seed b)))
              (fun r => bind (User.save_each online (N.succ seed) l)
                          (fun rs => ret (r :: rs)))).
    unfold bind at 1, attempt.
    pose proof (save_new_unique online (User.new seed b) c H) as H1.
    destruct (User.save online true (User.new seed b) c) as [r c1]. simpl in H1.
    unfold bind.
    pose proof (IH (N.succ seed) c1 H1) as H2.
    destruct (User.save_each online (N.succ seed) l c1) as [[rs | e] c2];
      exact H2.
Qed.

Lemma put_by_id_keeps_ids (online : bool) (id : string) (u : Body.t)
    (c : Collection) :
  map _id (snd (put_by_id online id u c)) = map _id c.
Proof.
  run_handler. destruct online; handler_cases; try reflexivity.
  apply replace_first_ids. reflexivity.
Qed.

Lemma put_classic_update_keeps_ids (online : bool) (id : string) (c : Collection) :
  map _id (snd (put_classic_update online id c)) = map _id c.
Proof.
  destruct (castObjectId id) as [o |] eqn:Hc;
    [| run_handler; rewrite Hc; reflexivity].
  destruct online; [| run_handler; rewrite Hc; reflexivity].
  destruct (find (matches (FId o)) c) as [q |] eqn:F;
    [| run_handler; rewrite Hc; simpl; rewrite F; reflexivity].
  rewrite (classic_update_on_found id o q c Hc F).
  destruct (validate (hamburger_added q)); [| reflexivity].
  cbn [snd]. apply replace_first_ids.
  intros d Hd. simpl in Hd. apply String.eqb_eq in Hd.
  rewrite Hd, id_hamburger_added. exact (find_matches_id o c q F).
Qed.

Lemma put_find_one_and_update_keeps_ids (online : bool) (nm : string)
    (c : Collection) :
  map _id (snd (put_find_one_and_update online nm c)) = map _id c.
Proof.
  run_handler. destruct online; handler_cases; try reflexivity.
  apply replace_first_ids. reflexivity.
Qed.

Lemma delete_keeps_unique (online : bool) (id : string) (c : Collection) :
  NoDup (map _id c) ->
  NoDup (map _id (snd (User.findByIdAndDelete online id c))).
Proof.
  intro H. run_handler. destruct (castObjectId id) as [o |]; [| exact H].
  destruct online; simpl; [| exact H].
  destruct (find (matches (FId o)) c); simpl; [| exact H].
  apply remove_first_unique. exact H.
Qed.

Lemma router_keeps_ids_unique (online : bool) (seed : N) (req : Request)
    (c : Collection) :
  NoDup (map _id c) -> NoDup (map _id (snd (router online seed req c))).
Proof.
  intro H.
  destruct req as [| b | id b | id | b | rb | nm | food | id | id | nm | id | nm |];
    simpl router.
  - rewrite get_all_reads. exact H.
  - unfold post_user. rewrite try_catch_snd, bind_ret_snd.
    apply save_new_unique. exact H.
  - rewrite put_by_id_keeps_ids. exact H.
  - unfold delete_by_id. rewrite try_catch_snd. unfold bind.
    pose proof (delete_keeps_unique online id c H) as K.
    destruct (User.findByIdAndDelete online id c) as [[[d |] | e] c']; exact K.
  - unfold post_create_one. rewrite try_catch_snd, bind_ret_snd.
    apply save_new_unique. exact H.
  - unfold post_create_many. rewrite try_catch_snd.
    destruct rb as [o | [| b l]]; [exact H | exact H |].
    unfold User.create, bind.
    pose proof (save_each_unique online (b :: l) seed c H) as K.
    destruct (User.save_each online seed (b :: l) c) as [[rs | e] c']; [| exact K].
    destruct (first_error rs); exact K.
  - rewrite get_find_by_name_reads. exact H.
  - rewrite get_find_one_food_reads. exact H.
  - rewrite get_find_by_id_reads. exact H.
  - rewrite put_classic_update_keeps_ids. exact H.
  - rewrite put_find_one_and_update_keeps_ids. exact H.
  - unfold delete_find_by_id_and_remove, User.findByIdAndRemove.
    rewrite try_catch_snd. unfold bind.
    pose proof (delete_keeps_unique online id c H) as K.
    destruct (User.findByIdAndDelete online id c) as [[[d |] | e] c']; exact K.
  - destruct online; [| exact H].
    rewrite delete_many_result. apply filter_unique. exact H.
  - rewrite get_search_burritos_reads. exact H.
Qed.

(** X18. Serving any run of requests from a collection whose identifiers are
    unique ends in a collection whose identifiers are unique: no route ever
    stores a second record under an identifier that is in use. *)
Theorem serve_keeps_identifiers_unique (reqs : list (bool * N * Request))
    (c : Collection) :
  NoDup (map _id c) -> NoDup (map _id (serve reqs c)).
Proof.
  revert c. induction reqs as [| [[online seed] req] reqs IH]; intros c H; simpl.
  - exact H.
  - apply IH. apply router_keeps_ids_unique. exact H.
Qed.

Lemma serve_keeps_identifiers_unique_witness :
  NoDup (map _id
           (serve [(true, 1%N, PostUser (Body.mk (Some "Bob") None None));
                   (true, 7%N, PostUser (Body.mk (Some "Bob") (Some 25%Z) None));
                   (true, 0%N, PutClassicUpdate "000000000000000000000001");
                   (true, 0%N, DeleteManyByName "Alpha")]
              [zeta; alpha; eve])).
Proof.
  apply serve_keeps_identifiers_unique.
  repeat constructor; simpl; intuition discriminate.
Defined.
